(** * Cleaner: eTox extraction cleaning (src/clean_extractions.py)

    A shallow embedding of the [Cleaner] class and of the Python and pandas
    operations it relies on, followed by the properties of the
    unit-normalisation pipeline.

    Modelling conventions.
    - Python [float] is IEEE binary64: Rocq's primitive [float].  A missing
      cell of a float column is [nan], as in pandas.
    - Python [str] is modelled by [string] (bytes); [lower] acts on the ASCII
      letters, which is all the unit tables of the source mention.
    - A data frame is a list of rows in positional order; every row carries
      its index label.  The seven input columns are typed record fields; the
      five derived columns are fields too, together with the list of derived
      column names that have been created so far, in order of creation; the
      caller's own columns come before them, in an order the model leaves
      open.
    - Objects live in a heap of frames addressed by references, so that
      in-place mutation and [copy] can be told apart.
    - A raised exception ends the computation and keeps the heap as it was
      when the exception was raised. *)

From Stdlib Require Import Floats.PrimFloat ZArith Ascii String List Bool Lia.
From stdpp Require Import base option list strings gmap.
Import ListNotations.

Set Warnings "-inexact-float".
Local Open Scope string_scope.

(** ** Python strings *)

Module PyStr.

(** [c.lower()] on one ASCII character. *)
Definition lower_ascii (c : ascii) : ascii :=
  let n := nat_of_ascii c in
  if (65 <=? n)%nat && (n <=? 90)%nat then ascii_of_nat (n + 32) else c.

(** [s.lower()] *)
Fixpoint lower (s : string) : string :=
  match s with
  | EmptyString => EmptyString
  | String c s' => String (lower_ascii c) (lower s')
  end.

(** [s.startswith(p)] *)
Definition startswith (s p : string) : bool := String.prefix p s.

(** [needle in hay] *)
Fixpoint contains (needle hay : string) : bool :=
  String.prefix needle hay ||
  match hay with
  | EmptyString => false
  | String _ hay' => contains needle hay'
  end.

(** [c in chars] for a character. *)
Fixpoint mem_char (c : ascii) (chars : string) : bool :=
  match chars with
  | EmptyString => false
  | String d chars' => Ascii.eqb c d || mem_char c chars'
  end.

(** [s.lstrip(chars)] *)
Fixpoint lstrip (chars s : string) : string :=
  match s with
  | EmptyString => EmptyString
  | String c s' => if mem_char c chars then lstrip chars s' else s
  end.

(** [s.rstrip(chars)] *)
Fixpoint rstrip (chars s : string) : string :=
  match s with
  | EmptyString => EmptyString
  | String c s' =>
      match rstrip chars s' with
      | EmptyString => if mem_char c chars then EmptyString else String c EmptyString
      | t => String c t
      end
  end.

(** [s.strip(chars)] *)
Definition strip (chars s : string) : string := rstrip chars (lstrip chars s).

(** [s.split(sep)] for a one-character separator: never the empty list. *)
Fixpoint split (sep : ascii) (s : string) : list string :=
  match s with
  | EmptyString => [EmptyString]
  | String c s' =>
      if Ascii.eqb c sep then EmptyString :: split sep s'
      else match split sep s' with
           | w :: ws => String c w :: ws
           | [] => [String c EmptyString]
           end
  end.

Fixpoint drop (n : nat) (s : string) : string :=
  match n, s with
  | S n', String _ s' => drop n' s'
  | _, _ => s
  end.

(** [s.replace(old, new)] for a non-empty [old]: leftmost occurrences,
    without overlap.  The fuel is the length of [s] plus one. *)
Fixpoint replace_fuel (fuel : nat) (old new s : string) : string :=
  match fuel with
  | O => s
  | S fuel' =>
      match s with
      | EmptyString => EmptyString
      | String c s' =>
          if String.prefix old s
          then new +:+ replace_fuel fuel' old new (drop (String.length old) s)
          else String c (replace_fuel fuel' old new s')
      end
  end.

Definition replace (old new s : string) : string :=
  replace_fuel (S (String.length s)) old new s.

End PyStr.
Import PyStr.

(** [x in l] for a Python list of strings, and [Series.isin]. *)
Definition py_in (x : string) (l : list string) : bool :=
  existsb (String.eqb x) l.

(** [Series.unique()]: the distinct values, in order of first appearance. *)
Fixpoint unique_from (seen l : list string) : list string :=
  match l with
  | [] => []
  | x :: l' =>
      if py_in x seen then unique_from seen l'
      else x :: unique_from (x :: seen) l'
  end.

Definition unique (l : list string) : list string := unique_from [] l.

(** ** Exceptions *)

Inductive exn : Set :=
| AttributeError
| NameError
| ValueError
| IndexError
| KeyError
| TypeError
| ZeroDivisionError.

Inductive outcome (A : Type) : Type :=
| Return (a : A)
| Raise (e : exn).
Arguments Return {A} a.
Arguments Raise {A} e.

Definition obind {A B} (x : outcome A) (k : A -> outcome B) : outcome B :=
  match x with
  | Return a => k a
  | Raise e => Raise e
  end.

(** ** Cleaner.convert_values_to_SI (lines 178-213) *)

(** Division of Python floats: a zero divisor raises. *)
Definition py_div (a b : float) : outcome float :=
  if PrimFloat.eqb b 0 then Raise ZeroDivisionError else Return (a / b)%float.

Definition convert_values_to_SI (value weight : float) (arguments : list string)
  : outcome float :=
  let standard_val :=
    if py_in "micro" arguments then (value * 1e-3)%float
    else if py_in "nano" arguments then (value * 1e-6)%float
    else if py_in "pico" arguments then (value * 1e-9)%float
    else value in
  obind
    (if py_in "gram" arguments then py_div (standard_val * 1000)%float weight
     else if py_in "mol" arguments then Return (standard_val * 1000)%float
     else if py_in "miligram" arguments then py_div standard_val weight
     else Return standard_val)
    (fun standard_val =>
       let standard_val :=
         if py_in "mililiter" arguments then (standard_val * 1e-3)%float
         else if py_in "deciliter" arguments then (standard_val * 1e-1)%float
         else standard_val in
       let standard_val :=
         if py_in "minute" arguments then (standard_val * 60)%float
         else standard_val in
       Return standard_val).

(** ** Token decomposition of a unit string (Cleaner.correct_units, lines 248-303) *)

(** The branch for [len(unit_split) == 2]; both parts are already lowered. *)
Definition args_two_parts (unit_ liter : string) : list string :=
  (if contains "u" unit_ || startswith unit_ "mc" || contains "micro" unit_
   then ["micro"]
   else if startswith unit_ "p" then ["pico"]
   else if startswith unit_ "n" then ["nano"]
   else [])
  ++ (if startswith (strip "<" (strip "*" (strip "?" (lower unit_)))) "mol"
      then ["mol"] else [])
  ++ (if startswith (replace "gm" "mg" (replace " " "" unit_)) "mg"
         || startswith unit_ "mk"
         || contains "milligrams" (lower unit_)
      then ["miligram"]
      else if startswith (strip "(" (lower unit_)) "g" then ["gram"]
      else [])
  ++ (if contains "dl" liter || contains "deciliter" liter
         || contains "100ml" (lower (replace " " "" liter))
      then ["deciliter"]
      else if contains "ml" liter then ["mililiter"]
      else []).

(** The branch for [len(unit_split) > 2], once the three names are bound. *)
Definition args_three_parts (unit_ time liter : string) : list string :=
  (if contains "n" unit_ then ["nano"]
   else if contains "u" unit_ then ["micro"]
   else [])
  ++ (if contains "min" time then ["minute"]
      else if contains "ml" time then ["mililiter"]
      else [])
  ++ (if contains "min" liter then ["minute"]
      else if startswith liter "g" then ["gram"]
      else []).

(** The [else] branch: a unit without "/". *)
Definition args_one_part (unit_ : string) : list string :=
  (if startswith unit_ "n" then ["nano"]
   else if startswith unit_ "u" || contains "micro" unit_ then ["micro"]
   else [])
  ++ (if startswith unit_ "g" then ["gram"]
      else if startswith unit_ "mg" then ["miligram"]
      else [])
  ++ (if contains "%" unit_ || contains "100ml" (lower (replace " " "" unit_))
      then ["deciliter"] else []).

(** The value of [args_] after the branch structure, for one unit.  The
    unpacking [unit_, time, liter = [...]] needs exactly three parts. *)
Definition unit_args (unit : string) : outcome (list string) :=
  let unit_split := split "/" unit in
  if (List.length unit_split =? 2)%nat then
    match map lower unit_split with
    | [unit_; liter] => Return (args_two_parts unit_ liter)
    | _ => Raise ValueError
    end
  else if (2 <? List.length unit_split)%nat then
    match map lower unit_split with
    | [unit_; time; liter] => Return (args_three_parts unit_ time liter)
    | _ => Raise ValueError
    end
  else
    match unit_split with
    | u :: _ => Return (args_one_part (lower u))
    | [] => Raise IndexError
    end.

(** ** Data frames *)

(** One observation as the caller supplies it: the index label and the seven
    input columns. *)
Record observation : Set := Observation {
  obs_label : Z;
  obs_timepoint : float;
  obs_timepoint_unit : string;
  obs_animal_age : float;
  obs_animal_age_unit : string;
  obs_parameter : string;
  obs_value : float;
  obs_value_unit : string }.

(** One row of the frame the Cleaner works on. *)
Record row : Set := Row {
  label : Z;
  timepoint : float;
  timepoint_unit : string;
  animal_age : float;
  animal_age_unit : string;
  parameter : string;
  value : float;
  value_unit : string;
  age_at_start_days : float;        (* 'age_at_start(days)' *)
  timepoint_days : float;           (* 'timepoint(days)' *)
  timepoint_age_days : float;       (* 'timepoint_age(days)' *)
  average_value_fixed : float;      (* 'average_value_fixed' *)
  unit_fixed : option string }.     (* 'unit_fixed' *)

Definition set_age_at_start_days (x : float) (r : row) : row :=
  Row (label r) (timepoint r) (timepoint_unit r) (animal_age r) (animal_age_unit r)
      (parameter r) (value r) (value_unit r)
      x (timepoint_days r) (timepoint_age_days r) (average_value_fixed r) (unit_fixed r).

Definition set_timepoint_days (x : float) (r : row) : row :=
  Row (label r) (timepoint r) (timepoint_unit r) (animal_age r) (animal_age_unit r)
      (parameter r) (value r) (value_unit r)
      (age_at_start_days r) x (timepoint_age_days r) (average_value_fixed r) (unit_fixed r).

Definition set_timepoint_age_days (x : float) (r : row) : row :=
  Row (label r) (timepoint r) (timepoint_unit r) (animal_age r) (animal_age_unit r)
      (parameter r) (value r) (value_unit r)
      (age_at_start_days r) (timepoint_days r) x (average_value_fixed r) (unit_fixed r).

Definition set_average_value_fixed (x : float) (r : row) : row :=
  Row (label r) (timepoint r) (timepoint_unit r) (animal_age r) (animal_age_unit r)
      (parameter r) (value r) (value_unit r)
      (age_at_start_days r) (timepoint_days r) (timepoint_age_days r) x (unit_fixed r).

Definition set_unit_fixed (x : option string) (r : row) : row :=
  Row (label r) (timepoint r) (timepoint_unit r) (animal_age r) (animal_age_unit r)
      (parameter r) (value r) (value_unit r)
      (age_at_start_days r) (timepoint_days r) (timepoint_age_days r)
      (average_value_fixed r) x.

(** A frame: the derived columns created so far, in order of creation, and
    the rows. *)
Record frame : Set := Frame {
  columns : list string;
  rows : list row }.

#[global] Instance frame_inhabited : Inhabited frame := populate (Frame [] []).

(** The frame built from the caller's observations: no derived column yet,
    every derived cell missing. *)
Definition load (o : observation) : row :=
  Row (obs_label o) (obs_timepoint o) (obs_timepoint_unit o) (obs_animal_age o)
      (obs_animal_age_unit o) (obs_parameter o) (obs_value o) (obs_value_unit o)
      nan nan nan nan None.

Definition DataFrame (data : list observation) : frame := Frame [] (map load data).

(** Setting cells of a column that does not exist yet creates it. *)
Definition with_column (name : string) (cols : list string) : list string :=
  if py_in name cols then cols else (cols ++ [name])%list.

(** [df.loc[mask, name] = ...] with one new cell value per selected row,
    computed from the row. *)
Definition loc_set (name : string) (mask : row -> bool) (upd : row -> row) (f : frame)
  : frame :=
  Frame (with_column name (columns f))
        (map (fun r => if mask r then upd r else r) (rows f)).

(** [pd.isna] on a float cell, and its negation. *)
Definition isna (x : float) : bool := PrimFloat.is_nan x.
Definition notna (x : float) : bool := negb (isna x).

(** ** The heap and the computations over it *)

Abbreviation heap := (list frame).

Definition M (A : Type) : Type := heap -> outcome A * heap.

Definition mret {A} (a : A) : M A := fun h => (Return a, h).

Definition mbind {A B} (c : M A) (k : A -> M B) : M B :=
  fun h =>
    match c h with
    | (Return a, h') => k a h'
    | (Raise e, h') => (Raise e, h')
    end.

Definition lift {A} (o : outcome A) : M A := fun h => (o, h).

Declare Scope cleaner_scope.
Delimit Scope cleaner_scope with cleaner.
Notation "x <- c ;; k" := (mbind c (fun x => k))
  (at level 100, c at next level, right associativity) : cleaner_scope.
Notation "c ;;; k" := (mbind c (fun _ => k))
  (at level 100, right associativity) : cleaner_scope.
Local Open Scope cleaner_scope.

(** Reading the object behind a reference, mutating it in place, and
    allocating a new object. *)
Definition read (r : nat) : M frame := fun h => (Return (h !!! r), h).

Definition modify (r : nat) (g : frame -> frame) : M unit :=
  fun h => (Return tt, <[r := g (h !!! r)]> h).

(** In-place update by a step that may raise: the object changes only if
    the step returns. *)
Definition update (r : nat) (g : frame -> outcome frame) : M unit :=
  fun h =>
    match g (h !!! r) with
    | Return f' => (Return tt, <[r := f']> h)
    | Raise e => (Raise e, h)
    end.

Definition alloc (f : frame) : M nat :=
  fun h => (Return (List.length h), (h ++ [f])%list).

Fixpoint for_each {A} (l : list A) (body : A -> M unit) : M unit :=
  match l with
  | [] => mret tt
  | x :: l' => body x ;;; for_each l' body
  end.

(** ** The Cleaner object (lines 14-29) *)

Record Cleaner : Set := {
  df : nat;                       (* reference to the caller's frame *)
  timepoint_field : string;
  timepoint_unit_field : string;
  animal_age_field : string;
  animal_age_unit_field : string;
  parameter_field : string;
  value_field : string;
  value_unit_field : string }.

(** ** Cleaner.remove_nans (lines 59-65) *)

(** [self.df[self.df[timepoint] < 0].index] *)
Definition negative_timepoint_index (f : frame) : list Z :=
  map label (List.filter (fun r => (timepoint r <? 0)%float) (rows f)).

(** [df.drop(labels, axis=0)]: every row carrying one of the labels goes. *)
Definition drop_labels (labels : list Z) (f : frame) : frame :=
  Frame (columns f)
        (List.filter (fun r => negb (existsb (Z.eqb (label r)) labels)) (rows f)).

(** [df.dropna(subset=[timepoint, animal_age])] *)
Definition dropna_timepoint_age (f : frame) : frame :=
  Frame (columns f)
        (List.filter (fun r => notna (timepoint r) && notna (animal_age r)) (rows f)).

Definition remove_nans (self : Cleaner) : M unit :=
  modify (df self) (fun f => drop_labels (negative_timepoint_index f) f) ;;;
  modify (df self) dropna_timepoint_age.

(** ** Cleaner.animal_age_transformation (lines 67-80) *)

Definition age_weeks : list string := ["Weeks"; "Week"; "weeks"; "Weels"; "Weeka"].
Definition age_months : list string := ["Months"; "Month"; "Moths"; "Monhts"].
Definition age_years : list string := ["Years"; "Year"].
Definition age_days : list string := ["Days"; "Day"; "0"].

(** The four right-hand sides read the animal-age column only, which the
    four assignments leave alone, so each is computed at its assignment. *)
Definition animal_age_frame (f : frame) : frame :=
  let set units conv :=
    loc_set "age_at_start(days)" (fun r => py_in (animal_age_unit r) units)
            (fun r => set_age_at_start_days (conv (animal_age r)) r) in
  set age_days (fun a => a)
    (set age_years (fun a => a * 360)%float
       (set age_months (fun a => a * 30)%float
          (set age_weeks (fun a => a * 7)%float f))).

Definition animal_age_transformation (self : Cleaner) : M unit :=
  modify (df self) animal_age_frame.

(** ** Cleaner.timepoint_transformation (lines 82-102) *)

Definition tp_weeks : list string := ["Weeks"; "Week"; "WEEK"; "week"].
Definition tp_months : list string := ["Months"; "Month"].
Definition tp_years : list string := ["Years"].
Definition tp_hours : list string := ["Hours"].
Definition tp_minutes : list string := ["Minutes"].
Definition tp_days : list string := ["Days"; "Day"; "Day(s)"; "day"].

(** [sum(axis=1)] over two float cells with the default [skipna=True]: a
    missing cell counts as zero and the reduction starts from zero, so that
    two cells -0.0 add up to +0.0. *)
Definition fill0 (x : float) : float := if isna x then 0%float else x.
Definition nansum2 (a b : float) : float := (0 + fill0 a + fill0 b)%float.

(** The six masked assignments of lines 94-99. *)
Definition timepoint_assign (f : frame) : frame :=
  let set units conv :=
    loc_set "timepoint(days)" (fun r => py_in (timepoint_unit r) units)
            (fun r => set_timepoint_days (conv (timepoint r)) r) in
  set tp_days (fun t => t)
    (set tp_minutes (fun t => t / 1440)%float
       (set tp_hours (fun t => t / 24)%float
          (set tp_years (fun t => t * 360)%float
             (set tp_months (fun t => t * 30)%float
                (set tp_weeks (fun t => t * 7)%float f))))).

(** The names of the last two columns, when at least two derived columns
    exist. *)
Fixpoint last_two (cols : list string) : option (string * string) :=
  match cols with
  | c1 :: ((c2 :: rest) as cols') =>
      match rest with
      | [] => Some (c1, c2)
      | _ :: _ => last_two cols'
      end
  | _ => None
  end.

(** The float cells of a row, by column name. *)
Definition float_column (name : string) : option (row -> float) :=
  if String.eqb name "age_at_start(days)" then Some age_at_start_days
  else if String.eqb name "timepoint(days)" then Some timepoint_days
  else if String.eqb name "timepoint_age(days)" then Some timepoint_age_days
  else if String.eqb name "average_value_fixed" then Some average_value_fixed
  else None.

(** [df.iloc[:, -2:].sum(axis=1)]: the slice is taken by position.  When the
    last two columns are float columns among the derived ones, their cells
    are added.  Otherwise the slice holds 'unit_fixed' or one of the caller's
    own columns, whose order and types the model leaves open; the sum is then
    given as the TypeError pandas raises on a column of strings. *)
Definition sum_last_two (cols : list string) : outcome (row -> float) :=
  match last_two cols with
  | Some (c1, c2) =>
      match float_column c1, float_column c2 with
      | Some cell1, Some cell2 => Return (fun r => nansum2 (cell1 r) (cell2 r))
      | _, _ => Raise TypeError
      end
  | None => Raise TypeError
  end.

(** Line 102. *)
Definition sum_columns (f : frame) : outcome frame :=
  obind (sum_last_two (columns f))
        (fun total =>
           Return (loc_set "timepoint_age(days)" (fun _ => true)
                           (fun r => set_timepoint_age_days (total r) r) f)).

Definition timepoint_frame (f : frame) : outcome frame :=
  sum_columns (timepoint_assign f).

(** The six assignments are done in place before line 102 is run. *)
Definition timepoint_transformation (self : Cleaner) : M unit :=
  modify (df self) timepoint_assign ;;;
  update (df self) sum_columns.

(** ** Cleaner.get_concentration_units (lines 104-154) *)

(** One turn of the loop: the if/elif chain, every branch appending. *)
Definition conc_step (conc_units : list string) (unit : string) : list string :=
  if contains "mg" (lower unit) then (conc_units ++ [unit])%list
  else if startswith (strip "(" (lower unit)) "g" then (conc_units ++ [unit])%list
  else if contains "mol" (lower unit) then (conc_units ++ [unit])%list
  else if contains "milligrams" (lower unit) then (conc_units ++ [unit])%list
  else if startswith (lower unit) "ng" then (conc_units ++ [unit])%list
  else if startswith (lower unit) "ug" then (conc_units ++ [unit])%list
  else if contains "pg" (lower unit) then (conc_units ++ [unit])%list
  else if contains "ratio" (lower unit) then (conc_units ++ [unit])%list
  else if startswith (lower unit) "mm" then (conc_units ++ [unit])%list
  else if startswith (lower unit) "mcg" then (conc_units ++ [unit])%list
  else if contains "m g " (lower unit) then (conc_units ++ [unit])%list
  else if startswith (lower unit) "mcm" then (conc_units ++ [unit])%list
  else if contains "microg" (lower unit) then (conc_units ++ [unit])%list
  else if startswith (lower unit) "um" then (conc_units ++ [unit])%list
  else if startswith (lower unit) "nm" then (conc_units ++ [unit])%list
  else if contains "pmoi" (lower unit) then (conc_units ++ [unit])%list
  else if startswith unit "MNOL" then (conc_units ++ [unit])%list
  else if contains "nrnol/L" unit then (conc_units ++ [unit])%list
  else if contains "m e q" (lower unit) || contains "meq" (lower unit)
       then (conc_units ++ [unit])%list
  else if contains "MAEQ/L" unit || contains "ME Q/L" unit then (conc_units ++ [unit])%list
  else conc_units.

Definition concentration_units_of (f : frame) : list string :=
  fold_left conc_step (unique (map value_unit (rows f))) [].

Definition get_concentration_units (self : Cleaner) : M (list string) :=
  f <- read (df self) ;; mret (concentration_units_of f).

(** [self.df.loc[self.df[value_unit].isin(concentration_units), parameter].unique()]
    (line 53) *)
Definition parameters_with_units (concentration_units : list string) (f : frame)
  : list string :=
  unique (map parameter
              (List.filter (fun r => py_in (value_unit r) concentration_units) (rows f))).

(** ** Cleaner.get_parameter_weights (lines 156-176) *)

(** A compound record as the lookup service returns it. *)
Record compound : Set := Compound {
  molecular_weight : option float;
  molecular_formula : option string }.

(** Truth value of [mol_weight]: [None] and zero are false. *)
Definition truthy (mol_weight : option float) : bool :=
  match mol_weight with
  | Some w => negb (PrimFloat.eqb w 0)
  | None => false
  end.

(** The body of [for compound in compounds]. *)
Definition weight_step (parameter : string) (parameter_weight : gmap string float)
    (c : compound) : gmap string float :=
  match molecular_weight c with
  | Some mol_weight =>
      if truthy (Some mol_weight) then <[parameter := mol_weight]> parameter_weight
      else parameter_weight
  | None => parameter_weight
  end.

Section Lookup.

(** [pcp.get_compounds(name, 'name')]: the external lookup service. *)
Variable get_compounds : string -> list compound.

(** The body of [for parameter in parameter_conc_unit_list]. *)
Definition parameter_step (parameter_weight : gmap string float) (parameter : string)
  : gmap string float :=
  let compounds := get_compounds parameter in
  match compounds with
  | [] => parameter_weight
  | _ => fold_left (weight_step parameter) compounds parameter_weight
  end.

Definition get_parameter_weights (parameter_conc_unit_list : list string)
  : gmap string float :=
  fold_left parameter_step parameter_conc_unit_list ∅.

End Lookup.

(** ** Cleaner.values_to_SI (lines 215-235) *)

(** The objects that reach [values_to_SI] and its callee. *)
Inductive pyobj : Type :=
| PyCleaner (c : Cleaner)
| PyFrame (cols : list string) (sel : list (string * float))
| PySeries
| PyDict (d : gmap string float)
| PyList (l : list string)
| PyFloat (x : float).

(** [obj.iterrows()]: only a frame has the method. *)
Definition iterrows (o : pyobj) : outcome (list (string * float)) :=
  match o with
  | PyFrame _ sel => Return sel
  | _ => Raise AttributeError
  end.

(** [k in obj.keys()]: the keys of a dict, the column names of a frame. *)
Definition in_keys (k : string) (o : pyobj) : outcome bool :=
  match o with
  | PyDict d => Return (bool_decide (is_Some (d !! k)))
  | PyFrame cols _ => Return (py_in k cols)
  | _ => Raise AttributeError
  end.

(** [obj[k]] *)
Definition getitem (o : pyobj) (k : string) : outcome pyobj :=
  match o with
  | PyDict d =>
      match d !! k with
      | Some w => Return (PyFloat w)
      | None => Raise KeyError
      end
  | PyFrame cols _ => if py_in k cols then Return PySeries else Raise KeyError
  | _ => Raise TypeError
  end.

(** The names bound at module level: the two imports and the class.  The
    functions of the class body are attributes of [Cleaner], not globals. *)
Definition module_globals : list string := ["pd"; "pcp"; "Cleaner"].

Definition load_global (name : string) : outcome unit :=
  if py_in name module_globals then Return tt else Raise NameError.

(** [convert_values_to_SI(value, weight, args[0])] once the callee is found. *)
Definition call_convert (value : float) (weight : pyobj) (args : list pyobj)
  : outcome float :=
  match args with
  | PyList arguments :: _ =>
      match weight with
      | PyFloat w => convert_values_to_SI value w arguments
      | _ => Raise TypeError
      end
  | _ :: _ => Raise TypeError
  | [] => Raise IndexError
  end.

(** The loop over [iterrows()]. *)
Fixpoint values_loop (parameter_weight : pyobj) (args : list pyobj)
    (sel : list (string * float)) (list_of_vals : list float) : outcome (list float) :=
  match sel with
  | [] => Return list_of_vals
  | (param, value) :: sel' =>
      obind (in_keys param parameter_weight) (fun known =>
        if known then
          obind (getitem parameter_weight param) (fun weight =>
          obind (load_global "convert_values_to_SI") (fun _ =>
          obind (call_convert value weight args) (fun std_val =>
            values_loop parameter_weight args sel' (list_of_vals ++ [std_val])%list)))
        else values_loop parameter_weight args sel' list_of_vals)
  end.

(** The function as defined: its first parameter is [param_per_unit_df], there
    is no [self].  ([print] writes to standard output only.) *)
Definition values_to_SI (param_per_unit_df parameter_weight : pyobj) (args : list pyobj)
  : outcome (list float) :=
  obind (iterrows param_per_unit_df) (fun sel =>
    values_loop parameter_weight args sel []).

(** ** Cleaner.correct_units (lines 237-316) *)

(** One value per selected row, in order; the lengths must agree. *)
Fixpoint assign_in_order (mask : row -> bool) (vals : list float) (rs : list row)
  : outcome (list row) :=
  match rs with
  | [] =>
      match vals with
      | [] => Return []
      | _ :: _ => Raise ValueError
      end
  | r :: rs' =>
      if mask r then
        match vals with
        | v :: vals' =>
            obind (assign_in_order mask vals' rs')
                  (fun out => Return (set_average_value_fixed v r :: out))
        | [] => Raise ValueError
        end
      else obind (assign_in_order mask vals rs') (fun out => Return (r :: out))
  end.

(** [df.loc[mask, 'average_value_fixed'] = list_of_vals]: when the mask
    selects no row nothing is written, whatever the list; otherwise the list
    must hold one value per selected row. *)
Definition assign_values (mask : row -> bool) (vals : list float) (rs : list row)
  : outcome (list row) :=
  if existsb mask rs then assign_in_order mask vals rs else Return rs.

Definition has_weight (parameter_weight : gmap string float) (r : row) : bool :=
  bool_decide (is_Some (parameter_weight !! parameter r)).

(** Lines 310-312: the two assignments that end one turn of the loop. *)
Definition write_fixed (unit : string) (parameter_weight : gmap string float)
    (list_of_vals : list float) (f : frame) : outcome frame :=
  obind
    (assign_values
       (fun r => String.eqb (value_unit r) unit && has_weight parameter_weight r)
       list_of_vals (rows f))
    (fun rs =>
       Return
         (loc_set "unit_fixed" (fun r => String.eqb (value_unit r) unit)
                  (set_unit_fixed (Some "mM"))
                  (Frame (with_column "average_value_fixed" (columns f)) rs))).

(** Lines 305-306: the parameter and value columns of the rows in [unit]. *)
Definition param_per_unit (self : Cleaner) (unit : string) (f : frame) : pyobj :=
  PyFrame [parameter_field self; value_field self]
          (map (fun r => (parameter r, value r))
               (List.filter (fun r => String.eqb (value_unit r) unit) (rows f))).

(** One turn of [for unit in concentration_units].  The call at line 308 is
    made on the instance, so the instance is the first positional argument. *)
Definition correct_unit (self : Cleaner) (parameter_weight : gmap string float)
    (unit : string) : M Datatypes.unit :=
  args_ <- lift (unit_args unit) ;;
  f <- read (df self) ;;
  list_of_vals <-
    lift (values_to_SI (PyCleaner self) (param_per_unit self unit f)
                       [PyDict parameter_weight; PyList args_]) ;;
  update (df self) (write_fixed unit parameter_weight list_of_vals).

Definition correct_units (self : Cleaner) (concentration_units : list string)
    (parameter_weight : gmap string float) : M nat :=
  for_each concentration_units (correct_unit self parameter_weight) ;;;
  f <- read (df self) ;;
  alloc f.

(** ** Cleaner.clean_dataframe (lines 31-57) *)

Definition clean_dataframe (get_compounds : string -> list compound) (self : Cleaner)
  : M nat :=
  remove_nans self ;;;
  animal_age_transformation self ;;;
  timepoint_transformation self ;;;
  concentration_units <- get_concentration_units self ;;
  f <- read (df self) ;;
  let param_from_conc_unit_list := parameters_with_units concentration_units f in
  let parameter_weight := get_parameter_weights get_compounds param_from_conc_unit_list in
  correct_units self concentration_units parameter_weight.

(** ** Derived notions used in the statements *)

(** The conversion of one value: [args_] of the unit, then
    [convert_values_to_SI]. *)
Definition convert_in_unit (unit : string) (value weight : float) : outcome float :=
  obind (unit_args unit) (convert_values_to_SI value weight).

(** The rows of the frame once the row filter and the two time steps have
    run. *)
Definition remove_nans_frame (f : frame) : frame :=
  dropna_timepoint_age (drop_labels (negative_timepoint_index f) f).

(** The frame the timepoint step leaves in place: with the sum when line 102
    returns, with the six assignments only when it raises. *)
Definition timepoint_state (f : frame) : frame :=
  match timepoint_frame f with
  | Return f' => f'
  | Raise _ => timepoint_assign f
  end.

Definition time_normalised (f : frame) : frame :=
  timepoint_state (animal_age_frame (remove_nans_frame f)).

(** At line 102 the last two columns are 'age_at_start(days)' and
    'timepoint(days)', as on a frame that got its first derived column from
    the animal-age step. *)
Definition days_last (f : frame) : Prop :=
  last_two (with_column "timepoint(days)" (columns f))
  = Some ("age_at_start(days)", "timepoint(days)").

(** The index label of the row is the label of a row with a negative
    timepoint (possibly the row itself). *)
Definition shares_negative_label (f : frame) (r : row) : bool :=
  existsb (Z.eqb (label r)) (negative_timepoint_index f).

(** A row without its two fixed cells. *)
Definition erase_fixed (r : row) : row :=
  set_unit_fixed None (set_average_value_fixed nan r).

(** A row with a value in 'average_value_fixed' has "mM" in 'unit_fixed'. *)
Definition tied (r : row) : Prop :=
  notna (average_value_fixed r) = true -> unit_fixed r = Some "mM".

Definition fixed_tied (f : frame) : Prop := forall r, r ∈ rows f -> tied r.

(** What a turn of the conversion loop may change in a frame: nothing
    outside the two fixed cells, no column is lost, and the tie between the
    two fixed cells is kept. *)
Definition fixed_cells_only (f f' : frame) : Prop :=
  map erase_fixed (rows f') = map erase_fixed (rows f) /\
  (forall c, c ∈ columns f -> c ∈ columns f') /\
  (fixed_tied f -> fixed_tied f').

(** The same, for the object behind [r] in a heap; the other objects are
    left alone. *)
Definition heap_fixed_cells_only (r : nat) (h h' : heap) : Prop :=
  List.length h' = List.length h /\
  (forall r', r' <> r -> h' !! r' = h !! r') /\
  (forall f, h !! r = Some f -> exists f', h' !! r = Some f' /\ fixed_cells_only f f').

(** The weights of the matches that pass [if mol_weight:], in the order the
    lookup returned them. *)
Definition truthy_weights (compounds : list compound) : list float :=
  omap (fun c => if truthy (molecular_weight c) then molecular_weight c else None)
       compounds.

(** *** The classification rules as the specification lists them *)

Module Spec.

(** The twenty rules of step A, each a test on one unit string. *)
Definition rules : list (string -> bool) :=
  [ (fun u => contains "mg" (lower u));
    (fun u => startswith (lstrip "(" (lower u)) "g");
    (fun u => contains "mol" (lower u));
    (fun u => contains "milligrams" (lower u));
    (fun u => startswith (lower u) "ng");
    (fun u => startswith (lower u) "ug");
    (fun u => contains "pg" (lower u));
    (fun u => contains "ratio" (lower u));
    (fun u => startswith (lower u) "mm");
    (fun u => startswith (lower u) "mcg");
    (fun u => contains "m g " (lower u));
    (fun u => startswith (lower u) "mcm");
    (fun u => contains "microg" (lower u));
    (fun u => startswith (lower u) "um");
    (fun u => startswith (lower u) "nm");
    (fun u => contains "pmoi" (lower u));
    (fun u => startswith u "MNOL");
    (fun u => contains "nrnol/L" u);
    (fun u => contains "m e q" (lower u) || contains "meq" (lower u));
    (fun u => contains "MAEQ/L" u || contains "ME Q/L" u) ].

(** A unit string is concentration-like when any rule of the list accepts
    it. *)
Definition matches_any (rs : list (string -> bool)) (u : string) : bool :=
  existsb (fun rule => rule u) rs.

Definition concentration_like (u : string) : bool := matches_any rules u.

End Spec.

(** ** Further notions used by the additional properties *)

(** Number of occurrences of a character. *)
Fixpoint count_char (c : ascii) (s : string) : nat :=
  match s with
  | EmptyString => 0
  | String d s' => (if Ascii.eqb d c then 1 else 0) + count_char c s'
  end.

(** [sep.join(parts)] *)
Fixpoint join (sep : string) (parts : list string) : string :=
  match parts with
  | [] => EmptyString
  | [w] => w
  | w :: parts' => w +:+ sep +:+ join sep parts'
  end.

(** The tokens [convert_values_to_SI] tests for. *)
Definition vocabulary : list string :=
  ["micro"; "nano"; "pico"; "gram"; "mol"; "miligram"; "mililiter"; "deciliter";
   "minute"].

(** The seven input cells and the index label of a row. *)
Definition inputs_of (r : row) : observation :=
  Observation (label r) (timepoint r) (timepoint_unit r) (animal_age r)
              (animal_age_unit r) (parameter r) (value r) (value_unit r).

(** The unit tables of lines 72-80 and 87-99 read as one lookup: the days a
    quantity stands for, if its unit is one of the listed variants. *)
Definition age_in_days (u : string) (a : float) : option float :=
  if py_in u age_weeks then Some (a * 7)%float
  else if py_in u age_months then Some (a * 30)%float
  else if py_in u age_years then Some (a * 360)%float
  else if py_in u age_days then Some a
  else None.

Definition timepoint_in_days (u : string) (t : float) : option float :=
  if py_in u tp_weeks then Some (t * 7)%float
  else if py_in u tp_months then Some (t * 30)%float
  else if py_in u tp_years then Some (t * 360)%float
  else if py_in u tp_hours then Some (t / 24)%float
  else if py_in u tp_minutes then Some (t / 1440)%float
  else if py_in u tp_days then Some t
  else None.

Definition age_row (r : row) : row :=
  match age_in_days (animal_age_unit r) (animal_age r) with
  | Some x => set_age_at_start_days x r
  | None => r
  end.

Definition timepoint_day_row (r : row) : row :=
  match timepoint_in_days (timepoint_unit r) (timepoint r) with
  | Some x => set_timepoint_days x r
  | None => r
  end.

Definition timepoint_row (r : row) : row :=
  let r1 := timepoint_day_row r in
  set_timepoint_age_days (nansum2 (age_at_start_days r1) (timepoint_days r1)) r1.

(** Some row of the selection has its parameter among the keys. *)
Definition some_known (d : gmap string float) (sel : list (string * float)) : bool :=
  existsb (fun pv => bool_decide (is_Some (d !! fst pv))) sel.

(** * Properties *)


(** ** Concrete data used by the examples *)

Definition example_cleaner (r : nat) : Cleaner :=
  {| df := r;
     timepoint_field := "TIMEPOINT";
     timepoint_unit_field := "TIMEPOINT_UNIT";
     animal_age_field := "AGE";
     animal_age_unit_field := "AGE_UNIT";
     parameter_field := "PARAMETER";
     value_field := "AVERAGE_VALUE";
     value_unit_field := "UNIT" |}.

(** A lookup service that knows glucose only. *)
Definition glucose_only (name : string) : list compound :=
  if String.eqb name "Glucose"
  then [Compound (Some 180.16%float) (Some "C6H12O6")]
  else [].

(** Observations: glucose in "mg/dL", and a unit with four parts. *)
Definition obs_mg_dL : observation :=
  Observation 0 3 "Hours" 2 "Weeks" "Glucose" 50 "mg/dL".

Definition obs_four_parts : observation :=
  Observation 0 1 "Days" 8 "Weeks" "Glucose" 50 "mg/kg/bw/day".

(** A present timepoint and a negative animal age. *)
Definition obs_negative_age : observation :=
  Observation 0 5 "Days" (-3) "Weeks" "Glucose" 50 "%".

(** Timepoint zero, animal age missing. *)
Definition obs_zero_no_age : observation :=
  Observation 0 0 "Days" nan "Weeks" "Glucose" 50 "%".

(** An age unit outside the table of variants; the value unit is not
    concentration-like. *)
Definition obs_unmatched_age : observation :=
  Observation 0 3 "Days" 21 "days" "Haematocrit" 45 "%".

(** A parameter the lookup does not know, in a concentration-like unit. *)
Definition obs_unknown : observation :=
  Observation 0 1 "Days" 8 "Weeks" "Unobtainium" 7 "mg/dL".

(** Two matches for one name, with different weights. *)
Definition two_matches (_ : string) : list compound :=
  [Compound (Some 180.16%float) (Some "C6H12O6"); Compound (Some 198.17%float) None].

(** ** Basic facts on lists of strings *)

Lemma py_in_elem_of (x : string) (l : list string) : py_in x l = true <-> x ∈ l.
Proof.
  unfold py_in. rewrite existsb_exists. split.
  - intros (y & Hy & Heq). apply String.eqb_eq in Heq. subst y.
    by apply list_elem_of_In.
  - intros Hx. exists x. split; [by apply list_elem_of_In | apply String.eqb_refl].
Qed.

Lemma py_in_false (x : string) (l : list string) : py_in x l = false <-> x ∉ l.
Proof.
  rewrite <- py_in_elem_of. destruct (py_in x l); split; congruence.
Qed.

Lemma unique_from_elem_of (seen l : list string) (x : string) :
  x ∈ unique_from seen l <-> x ∈ l /\ x ∉ seen.
Proof.
  revert seen. induction l as [|y l IH]; intros seen; simpl.
  - split; [intros H; inversion H | intros [H _]; inversion H].
  - destruct (py_in y seen) eqn:Hy.
    + apply py_in_elem_of in Hy. rewrite IH, elem_of_cons.
      split; [tauto | intros [[->|H] Hn]; [contradiction | tauto]].
    + apply py_in_false in Hy. rewrite !elem_of_cons, IH, elem_of_cons.
      split.
      * intros [->|[H Hn]]; [tauto | split; [tauto | intros Hs; apply Hn; tauto]].
      * intros [[->|H] Hn]; [tauto |].
        destruct (decide (x = y)) as [->|Hne]; [tauto | right; split; [done|]].
        intros [?|?]; [done | contradiction].
Qed.

Lemma unique_from_NoDup (seen l : list string) : NoDup (unique_from seen l).
Proof.
  revert seen. induction l as [|y l IH]; intros seen; simpl.
  - constructor.
  - destruct (py_in y seen) eqn:Hy; [apply IH |].
    constructor; [| apply IH].
    rewrite unique_from_elem_of, elem_of_cons. tauto.
Qed.

Lemma unique_elem_of (l : list string) (x : string) : x ∈ unique l <-> x ∈ l.
Proof.
  unfold unique. rewrite unique_from_elem_of. split; [tauto |].
  intros H; split; [done | intros H'; inversion H'].
Qed.

Lemma with_column_incl (name c : string) (cols : list string) :
  c ∈ cols -> c ∈ with_column name cols.
Proof.
  unfold with_column. destruct (py_in name cols); [done |].
  intros H. apply elem_of_app. by left.
Qed.

Lemma with_column_elem_of (name : string) (cols : list string) :
  name ∈ with_column name cols.
Proof.
  unfold with_column. destruct (py_in name cols) eqn:E.
  - by apply py_in_elem_of.
  - apply elem_of_app. right. apply list_elem_of_In. by left.
Qed.

Lemma with_column_twice (name : string) (cols : list string) :
  with_column name (with_column name cols) = with_column name cols.
Proof.
  unfold with_column at 1.
  by rewrite (proj2 (py_in_elem_of _ _) (with_column_elem_of name cols)).
Qed.

(** ** Unit conversion: token decomposition followed by the arithmetic *)

Example unit_args_mg_dL : unit_args "mg/dL" = Return ["miligram"; "deciliter"].
Proof. reflexivity. Qed.

Example unit_args_ug_mL : unit_args "ug/mL" = Return ["micro"; "mililiter"].
Proof. reflexivity. Qed.

Example unit_args_ng_mL : unit_args "ng/mL" = Return ["nano"; "mililiter"].
Proof. reflexivity. Qed.

Example unit_args_empty : unit_args "" = Return [].
Proof. reflexivity. Qed.

Lemma float_neq_of_eqb (a b : float) :
  PrimFloat.eqb a b = false -> PrimFloat.eqb b b = true -> a <> b.
Proof. intros Hab Hbb ->. congruence. Qed.

(** C1, as amended: the list [args_] of "mg/dL" is miligram, deciliter, so a
    value with a non-zero weight W converts as value / W * 1e-1; the list of
    "ug/mL" is micro, mililiter, so a value converts as value * 1e-3 * 1e-3,
    whatever the weight. *)
Theorem C1_scale_of_mg_dL_and_ug_mL (value W : float) :
  PrimFloat.eqb W 0 = false ->
  convert_in_unit "mg/dL" value W = Return (value / W * 1e-1)%float /\
  convert_in_unit "ug/mL" value W = Return (value * 1e-3 * 1e-3)%float.
Proof.
  intros HW. unfold convert_in_unit.
  rewrite unit_args_mg_dL, unit_args_ug_mL. cbn [obind].
  unfold convert_values_to_SI. cbn [py_in existsb String.eqb Ascii.eqb Bool.eqb orb obind].
  unfold py_div. rewrite HW. cbn [obind]. split; reflexivity.
Qed.

Lemma C1_scale_witness :
  PrimFloat.eqb 180.16 0 = false /\
  convert_in_unit "mg/dL" 50 180.16 = Return (50 / 180.16 * 1e-1)%float /\
  convert_in_unit "ug/mL" 50 180.16 = Return (50 * 1e-3 * 1e-3)%float.
Proof.
  split; [reflexivity |].
  apply (C1_scale_of_mg_dL_and_ug_mL 50 180.16). reflexivity.
Defined.

(** C1 as stated fails: with value 50 and weight 180.16 the unit "mg/dL"
    gives about 0.02775 (below 0.03), not 50 / 180.16 * 1000 * 1e-1, and the
    unit "ug/mL" gives 50 * 1e-3 * 1e-3, not 50 * 1e-3 / 180.16 * 1000 * 1e-3. *)
Lemma C1_scale_counterexample :
  (exists x, convert_in_unit "mg/dL" 50 180.16 = Return x /\
             PrimFloat.ltb x 0.03 = true /\
             x <> (50 / 180.16 * 1000 * 1e-1)%float) /\
  (exists y, convert_in_unit "ug/mL" 50 180.16 = Return y /\
             y <> (50 * 1e-3 / 180.16 * 1000 * 1e-3)%float).
Proof.
  split.
  - exists (50 / 180.16 * 1e-1)%float. split; [reflexivity | split; [reflexivity |]].
    apply float_neq_of_eqb; vm_compute; reflexivity.
  - exists (50 * 1e-3 * 1e-3)%float. split; [reflexivity |].
    apply float_neq_of_eqb; vm_compute; reflexivity.
Qed.

(** C9, as amended: "ng/mL" has two parts, so its list [args_] is nano,
    mililiter: a scale token, no basis token and the mililiter divisor.  A
    value of 10 with weight 500 converts as 10 * 1e-6 * 1e-3, which is below
    1e-7. *)
Theorem C9_ng_mL_scenario :
  unit_args "ng/mL" = Return ["nano"; "mililiter"] /\
  convert_in_unit "ng/mL" 10 500 = Return (10 * 1e-6 * 1e-3)%float /\
  PrimFloat.ltb (10 * 1e-6 * 1e-3)%float 1e-7 = true.
Proof. repeat split; reflexivity. Qed.

(** C9 as stated fails: the divisor token is present and the converted
    value is not 10 * 1e-6. *)
Lemma C9_ng_mL_counterexample :
  (exists args_, unit_args "ng/mL" = Return args_ /\ py_in "mililiter" args_ = true) /\
  convert_in_unit "ng/mL" 10 500 <> Return (10 * 1e-6)%float.
Proof.
  split.
  - exists ["nano"; "mililiter"]. split; reflexivity.
  - intros H.
    apply (f_equal (fun o => match o with
                             | Return x => PrimFloat.eqb x (10 * 1e-6)
                             | Raise _ => false
                             end)) in H.
    vm_compute in H. discriminate.
Qed.

(** ** The conversion step raises *)

Lemma correct_unit_raises (self : Cleaner) (parameter_weight : gmap string float)
    (unit : string) (h : heap) :
  exists e, correct_unit self parameter_weight unit h = (Raise e, h).
Proof.
  unfold correct_unit, mbind, lift, read.
  destruct (unit_args unit) as [args_|e]; [| by exists e].
  exists AttributeError. reflexivity.
Qed.

(** Called on its declared parameters, [values_to_SI] reaches line 232 at
    the first row with a known weight; the name [convert_values_to_SI] is not
    bound at module level. *)
Example values_to_SI_known_weight :
  values_to_SI (param_per_unit (example_cleaner 0) "mg/dL" (DataFrame [obs_mg_dL]))
               (PyDict (get_parameter_weights glucose_only ["Glucose"]))
               [PyList ["miligram"; "deciliter"]]
  = Raise NameError.
Proof. vm_compute. reflexivity. Qed.

(** C2: the conversion step does raise.  A concentration-like unit with four
    parts raises ValueError at the three-name unpacking; a unit that passes
    the branch structure raises AttributeError at the call of
    [values_to_SI], whose first parameter receives the instance; so
    [correct_units] raises on every non-empty list of units. *)
Theorem C2_conversion_raises :
  Spec.concentration_like "mg/kg/bw/day" = true /\
  unit_args "mg/kg/bw/day" = Raise ValueError /\
  fst (clean_dataframe glucose_only (example_cleaner 0) [DataFrame [obs_four_parts]])
    = Raise ValueError /\
  fst (clean_dataframe glucose_only (example_cleaner 0) [DataFrame [obs_mg_dL]])
    = Raise AttributeError /\
  (forall self parameter_weight unit units h,
      exists e, correct_units self (unit :: units) parameter_weight h = (Raise e, h)).
Proof.
  split; [reflexivity |]. split; [reflexivity |].
  split; [vm_compute; reflexivity |]. split; [vm_compute; reflexivity |].
  intros self pw u us h.
  destruct (correct_unit_raises self pw u h) as [e He]. exists e.
  unfold correct_units, mbind. cbn [for_each]. unfold mbind. rewrite He. reflexivity.
Qed.

(** ** The molecular-weight table *)

Lemma truthy_weights_cons (c : compound) (cs : list compound) :
  truthy_weights (c :: cs) =
  match molecular_weight c with
  | Some w => if negb (PrimFloat.eqb w 0) then w :: truthy_weights cs else truthy_weights cs
  | None => truthy_weights cs
  end.
Proof.
  unfold truthy_weights. cbn [omap list_omap].
  destruct (molecular_weight c) as [w|] eqn:E; cbn [truthy]; [| reflexivity].
  by destruct (negb (PrimFloat.eqb w 0)).
Qed.

Lemma weight_steps_lookup (p k : string) (cs : list compound) (pw : gmap string float) :
  fold_left (weight_step p) cs pw !! k =
  if decide (k = p)
  then match last (truthy_weights cs) with
       | Some w => Some w
       | None => pw !! k
       end
  else pw !! k.
Proof.
  revert pw. induction cs as [|c cs IH]; intros pw; cbn [fold_left].
  - cbn. by destruct (decide (k = p)).
  - rewrite IH, truthy_weights_cons. unfold weight_step.
    destruct (molecular_weight c) as [w|]; cbn [truthy]; [| done].
    destruct (negb (PrimFloat.eqb w 0)); [| done].
    rewrite last_cons.
    destruct (decide (k = p)) as [->|Hne].
    + destruct (last (truthy_weights cs)); [done |].
      by rewrite lookup_insert_eq.
    + by rewrite lookup_insert_ne.
Qed.

Lemma parameter_step_fold (get_compounds : string -> list compound)
    (pw : gmap string float) (p : string) :
  parameter_step get_compounds pw p = fold_left (weight_step p) (get_compounds p) pw.
Proof. unfold parameter_step. cbn. by destruct (get_compounds p). Qed.

Lemma parameter_weights_lookup (get_compounds : string -> list compound)
    (l : list string) (pw : gmap string float) (k : string) :
  fold_left (parameter_step get_compounds) l pw !! k =
  if decide (k ∈ l)
  then match last (truthy_weights (get_compounds k)) with
       | Some w => Some w
       | None => pw !! k
       end
  else pw !! k.
Proof.
  revert pw. induction l as [|p l IH]; intros pw; cbn [fold_left].
  - destruct (decide (k ∈ [])) as [H|_]; [inversion H | done].
  - rewrite IH, parameter_step_fold, weight_steps_lookup.
    destruct (decide (k ∈ p :: l)) as [Hin'|Hnin'];
      destruct (decide (k ∈ l)) as [Hin|Hnin];
      destruct (decide (k = p)) as [->|Hne];
      try (rewrite elem_of_cons in Hin'; tauto);
      try (rewrite elem_of_cons in Hnin'; tauto);
      try done;
      by destruct (last (truthy_weights (get_compounds _))).
Qed.

(** C6, as amended: the table maps a name of the list to the weight of the
    last returned match whose weight passes [if mol_weight:] (neither null nor
    zero); a name without such a match, or outside the list, has no entry. *)
Theorem C6_weight_of_last_match (get_compounds : string -> list compound)
    (parameter_conc_unit_list : list string) (name : string) :
  get_parameter_weights get_compounds parameter_conc_unit_list !! name =
  if decide (name ∈ parameter_conc_unit_list)
  then last (truthy_weights (get_compounds name))
  else None.
Proof.
  unfold get_parameter_weights. rewrite parameter_weights_lookup.
  rewrite lookup_empty.
  destruct (decide (name ∈ parameter_conc_unit_list)); [| done].
  by destruct (last (truthy_weights (get_compounds name))).
Qed.

(** C6 as stated fails: with two matches of weights 180.16 and 198.17, in
    this order, the table holds 198.17, the weight of the second match. *)
Lemma C6_weight_counterexample :
  get_parameter_weights two_matches ["Glucose"] !! "Glucose" = Some 198.17%float /\
  head (truthy_weights (two_matches "Glucose")) = Some 180.16%float /\
  Some 198.17%float <> Some 180.16%float.
Proof.
  split; [vm_compute; reflexivity |]. split; [vm_compute; reflexivity |].
  intros H.
  apply (f_equal (fun o => match o with
                           | Some x => PrimFloat.eqb x 180.16
                           | None => false
                           end)) in H.
  vm_compute in H. discriminate.
Qed.

(** ** The concentration-like units *)

Lemma prefix_g_rstrip (t : string) :
  String.prefix "g" (rstrip "(" t) = String.prefix "g" t.
Proof.
  destruct t as [|c t]; [reflexivity |].
  cbn [rstrip]. destruct (rstrip "(" t) as [|d t'].
  - cbn [mem_char]. destruct (Ascii.eqb_spec c "(") as [->|_]; cbn [orb].
    + reflexivity.
    + cbn [String.prefix]. destruct (ascii_dec "g" c); [by destruct t | done].
  - cbn [String.prefix]. destruct (ascii_dec "g" c); [by destruct t | done].
Qed.

Lemma startswith_g_strip (s : string) :
  startswith (strip "(" s) "g" = startswith (lstrip "(" s) "g".
Proof. unfold startswith, strip. apply prefix_g_rstrip. Qed.

(** One turn of the loop appends the unit exactly when a rule of the
    specification accepts it. *)
Lemma conc_step_spec (conc_units : list string) (unit : string) :
  conc_step conc_units unit =
  if Spec.concentration_like unit then (conc_units ++ [unit])%list else conc_units.
Proof.
  unfold conc_step, Spec.concentration_like, Spec.matches_any, Spec.rules.
  cbn [existsb]. rewrite startswith_g_strip.
  repeat match goal with
         | |- (if ?c then _ else _) = _ => destruct c; cbn [orb]; [reflexivity |]
         end.
  reflexivity.
Qed.

Lemma fold_conc_step (l conc_units : list string) :
  fold_left conc_step l conc_units =
  (conc_units ++ List.filter Spec.concentration_like l)%list.
Proof.
  revert conc_units. induction l as [|u l IH]; intros acc; cbn [fold_left List.filter].
  - by rewrite app_nil_r.
  - rewrite IH, conc_step_spec.
    destruct (Spec.concentration_like u); [| done].
    by rewrite <- app_assoc.
Qed.

Lemma matches_any_perm (rs rs' : list (string -> bool)) (u : string) :
  rs ≡ₚ rs' -> Spec.matches_any rs u = Spec.matches_any rs' u.
Proof.
  unfold Spec.matches_any.
  induction 1 as [|r rs rs' _ IH|r1 r2 rs|rs1 rs2 rs3 _ IH1 _ IH2]; cbn [existsb].
  - reflexivity.
  - by rewrite IH.
  - destruct (r1 u), (r2 u); reflexivity.
  - by rewrite IH1.
Qed.

(** C8: [get_concentration_units] returns, without touching the heap, the
    distinct value-unit strings of the frame that one of the twenty rules
    accepts, each once; and whether a string is accepted does not depend on
    the order of the rules. *)
Theorem C8_concentration_units (self : Cleaner) (h : heap) :
  exists conc_units,
    get_concentration_units self h = (Return conc_units, h) /\
    (forall u, u ∈ conc_units <->
               u ∈ map value_unit (rows (h !!! df self)) /\
               Spec.concentration_like u = true) /\
    NoDup conc_units /\
    List.length Spec.rules = 20 /\
    (forall rules', rules' ≡ₚ Spec.rules ->
       forall u, Spec.matches_any rules' u = Spec.concentration_like u).
Proof.
  exists (concentration_units_of (h !!! df self)).
  split; [reflexivity |].
  unfold concentration_units_of. rewrite fold_conc_step. cbn [app].
  split; [| split; [| split; [reflexivity |]]].
  - intros u. rewrite list_elem_of_In, filter_In, <- list_elem_of_In, unique_elem_of.
    reflexivity.
  - apply NoDup_ListNoDup, List.NoDup_filter, NoDup_ListNoDup, unique_from_NoDup.
  - intros rules' Hperm u. by apply matches_any_perm.
Qed.

(** ** Running the in-place steps *)

Lemma read_run (r : nat) (h : heap) (f : frame) :
  h !! r = Some f -> read r h = (Return f, h).
Proof. intros H. unfold read. by rewrite (list_lookup_total_correct _ _ _ H). Qed.

Lemma modify_run (r : nat) (g : frame -> frame) (h : heap) (f : frame) :
  h !! r = Some f -> modify r g h = (Return tt, <[r := g f]> h).
Proof. intros H. unfold modify. by rewrite (list_lookup_total_correct _ _ _ H). Qed.

Lemma mbind_run {A B} (c : M A) (k : A -> M B) (h h1 : heap) (a : A) :
  c h = (Return a, h1) -> mbind c k h = k a h1.
Proof. intros H. unfold mbind. by rewrite H. Qed.

Lemma insert_lookup_same (r : nat) (h : heap) (f f' : frame) :
  h !! r = Some f -> <[r := f']> h !! r = Some f'.
Proof. intros H. apply list_lookup_insert_eq. by apply lookup_lt_Some in H. Qed.

Lemma remove_nans_run (self : Cleaner) (h : heap) (f : frame) :
  h !! df self = Some f ->
  remove_nans self h = (Return tt, <[df self := remove_nans_frame f]> h).
Proof.
  intros H. unfold remove_nans, mbind.
  rewrite (modify_run _ _ _ _ H).
  rewrite (modify_run _ _ _ _ (insert_lookup_same _ _ _ _ H)).
  f_equal. apply (list_insert_insert_eq (A := frame)).
Qed.

(** ** The row filter *)

Lemma remove_nans_frame_rows (f : frame) (r : row) :
  r ∈ rows (remove_nans_frame f) <->
  r ∈ rows f /\ shares_negative_label f r = false /\
  notna (timepoint r) = true /\ notna (animal_age r) = true.
Proof.
  unfold remove_nans_frame, dropna_timepoint_age, drop_labels, shares_negative_label.
  cbn [rows]. rewrite !list_elem_of_In, !filter_In.
  rewrite negb_true_iff, andb_true_iff. tauto.
Qed.

Lemma negative_shares_label (f : frame) (r : row) :
  r ∈ rows f -> PrimFloat.ltb (timepoint r) 0 = true -> shares_negative_label f r = true.
Proof.
  intros Hin Hneg. unfold shares_negative_label, negative_timepoint_index.
  apply existsb_exists. exists (label r). split; [| apply Z.eqb_refl].
  apply in_map, filter_In. split; [by apply list_elem_of_In | done].
Qed.

Lemma unique_label_not_shared (f : frame) (r : row) :
  NoDup (map label (rows f)) -> r ∈ rows f ->
  PrimFloat.ltb (timepoint r) 0 = false -> shares_negative_label f r = false.
Proof.
  intros Hnd Hin Hpos. unfold shares_negative_label, negative_timepoint_index.
  apply not_true_is_false. intros Hex.
  apply existsb_exists in Hex as (l & Hl & Heq).
  apply Z.eqb_eq in Heq. subst l.
  apply in_map_iff in Hl as (r2 & Hlab & Hr2).
  apply filter_In in Hr2 as [Hr2 Hneg]. apply list_elem_of_In in Hr2.
  assert (r2 = r) as ->; [| congruence].
  apply list_elem_of_lookup_1 in Hin as [i Hi].
  apply list_elem_of_lookup_1 in Hr2 as [j Hj].
  assert (i = j) as ->; [| congruence].
  apply (NoDup_lookup _ i j (label r) Hnd).
  - by rewrite list_lookup_fmap, Hi.
  - by rewrite list_lookup_fmap, Hj, <- Hlab.
Qed.

(** C7: the row filter does not drop a row for its animal age being
    negative.  The row with timepoint 5 and animal age -3 is kept; in general
    every row is kept whose timepoint and animal age are present and whose
    index label is not the label of a negative-timepoint row, whatever the
    sign of the animal age: line 64 tests the timepoint only. *)
Theorem C7_negative_age_kept :
  PrimFloat.ltb (obs_animal_age obs_negative_age) 0 = true /\
  remove_nans (example_cleaner 0) [DataFrame [obs_negative_age]]
    = (Return tt, [DataFrame [obs_negative_age]]) /\
  (forall (self : Cleaner) (h : heap) (f : frame) (r : row),
      h !! df self = Some f ->
      r ∈ rows f ->
      shares_negative_label f r = false ->
      notna (timepoint r) = true ->
      notna (animal_age r) = true ->
      exists f', snd (remove_nans self h) !! df self = Some f' /\ r ∈ rows f').
Proof.
  split; [reflexivity |]. split; [reflexivity |].
  intros self h f r H Hin Hs Ht Ha. exists (remove_nans_frame f).
  rewrite (remove_nans_run _ _ _ H). cbn [snd].
  split; [by apply (insert_lookup_same _ _ f) |].
  apply remove_nans_frame_rows. tauto.
Qed.

(** ** The time normaliser *)

Lemma animal_age_run (self : Cleaner) (h : heap) (f : frame) :
  h !! df self = Some f ->
  animal_age_transformation self h = (Return tt, <[df self := animal_age_frame f]> h).
Proof. apply modify_run. Qed.

Lemma timepoint_assign_columns (f : frame) :
  columns (timepoint_assign f) = with_column "timepoint(days)" (columns f).
Proof.
  unfold timepoint_assign, loc_set. cbn [columns]. by rewrite !with_column_twice.
Qed.

(** The timepoint step: the six assignments stay in place even when line 102
    raises. *)
Lemma timepoint_run (self : Cleaner) (h : heap) (f : frame) :
  h !! df self = Some f ->
  timepoint_transformation self h =
  match timepoint_frame f with
  | Return f' => (Return tt, <[df self := f']> h)
  | Raise e => (Raise e, <[df self := timepoint_assign f]> h)
  end.
Proof.
  intros H. unfold timepoint_transformation.
  rewrite (mbind_run _ _ _ _ _ (modify_run _ _ _ _ H)). unfold update.
  rewrite (list_lookup_total_correct _ _ _ (insert_lookup_same _ _ _ _ H)).
  unfold timepoint_frame.
  destruct (sum_columns (timepoint_assign f)); [| done].
  by rewrite (list_insert_insert_eq (A := frame)).
Qed.

Lemma timepoint_state_run (self : Cleaner) (h : heap) (f : frame) :
  h !! df self = Some f ->
  snd (timepoint_transformation self h) = <[df self := timepoint_state f]> h.
Proof.
  intros H. rewrite (timepoint_run _ _ _ H). unfold timepoint_state.
  by destruct (timepoint_frame f).
Qed.

(** When the last two columns are the two day columns, line 102 returns and
    writes their sum in every row. *)
Lemma timepoint_frame_days_last (f : frame) :
  days_last f ->
  timepoint_frame f =
  Return (loc_set "timepoint_age(days)" (fun _ => true)
            (fun r => set_timepoint_age_days
                        (nansum2 (age_at_start_days r) (timepoint_days r)) r)
            (timepoint_assign f)).
Proof.
  intros H. unfold timepoint_frame, sum_columns, sum_last_two.
  rewrite timepoint_assign_columns, H. reflexivity.
Qed.

(** On a frame built from the caller's observations, the animal-age step
    creates the first derived column, so the condition holds. *)
Lemma days_last_fresh (data : list observation) :
  days_last (animal_age_frame (remove_nans_frame (DataFrame data))).
Proof. reflexivity. Qed.

Lemma time_normalised_fresh (data : list observation) :
  timepoint_frame (animal_age_frame (remove_nans_frame (DataFrame data)))
  = Return (time_normalised (DataFrame data)).
Proof.
  unfold time_normalised, timepoint_state.
  by rewrite (timepoint_frame_days_last _ (days_last_fresh data)).
Qed.

(** Two weeks of age are 14 days and a timepoint of three hours is 0.125
    days. *)
Example time_scenarios :
  map (fun r => (age_at_start_days r, timepoint_days r, timepoint_age_days r))
      (rows (time_normalised (DataFrame [obs_mg_dL])))
  = [(14, 0.125, 14.125)%float].
Proof. vm_compute. reflexivity. Qed.




(** ** The assignments that end a turn of the conversion loop *)

Lemma Return_inj {A} (a b : A) : Return a = Return b -> a = b.
Proof.
  intros H.
  exact (f_equal (fun o => match o with Return x => x | Raise _ => a end) H).
Qed.

Lemma assign_in_order_lookup (mask : row -> bool) (vals : list float)
    (rs out : list row) :
  assign_in_order mask vals rs = Return out ->
  forall i r, rs !! i = Some r ->
    exists r', out !! i = Some r' /\
               (mask r = false -> r' = r) /\
               (mask r = true -> exists v, r' = set_average_value_fixed v r).
Proof.
  revert vals out. induction rs as [|r0 rs IH]; intros vals out Hrun i r Hi.
  - inversion Hi.
  - cbn [assign_in_order] in Hrun. destruct (mask r0) eqn:Hm.
    + destruct vals as [|v vals]; [discriminate |].
      destruct (assign_in_order mask vals rs) as [out'|] eqn:E; [| discriminate].
      cbn [obind] in Hrun. apply Return_inj in Hrun. subst out.
      destruct i as [|i]; cbn in Hi |- *.
      * assert (r0 = r) as -> by congruence.
        eexists. split; [reflexivity |]. split; [congruence | eauto].
      * by apply (IH vals out' E i r).
    + destruct (assign_in_order mask vals rs) as [out'|] eqn:E; [| discriminate].
      cbn [obind] in Hrun. apply Return_inj in Hrun. subst out.
      destruct i as [|i]; cbn in Hi |- *.
      * assert (r0 = r) as -> by congruence.
        eexists. split; [reflexivity |]. split; [done | congruence].
      * by apply (IH vals out' E i r).
Qed.

Lemma assign_in_order_length (mask : row -> bool) (vals : list float)
    (rs out : list row) :
  assign_in_order mask vals rs = Return out -> List.length out = List.length rs.
Proof.
  revert vals out. induction rs as [|r0 rs IH]; intros vals out Hrun.
  - destruct vals; [| discriminate]. apply Return_inj in Hrun. by subst.
  - cbn [assign_in_order] in Hrun. destruct (mask r0).
    + destruct vals as [|v vals]; [discriminate |].
      destruct (assign_in_order mask vals rs) as [out'|] eqn:E; [| discriminate].
      cbn [obind] in Hrun. apply Return_inj in Hrun. subst out.
      cbn. f_equal. by apply (IH vals).
    + destruct (assign_in_order mask vals rs) as [out'|] eqn:E; [| discriminate].
      cbn [obind] in Hrun. apply Return_inj in Hrun. subst out.
      cbn. f_equal. by apply (IH vals).
Qed.

Lemma assign_values_lookup (mask : row -> bool) (vals : list float) (rs out : list row) :
  assign_values mask vals rs = Return out ->
  forall i r, rs !! i = Some r ->
    exists r', out !! i = Some r' /\
               (mask r = false -> r' = r) /\
               (mask r = true -> exists v, r' = set_average_value_fixed v r).
Proof.
  unfold assign_values. destruct (existsb mask rs) eqn:E.
  - apply assign_in_order_lookup.
  - intros Hrun i r Hi. apply Return_inj in Hrun. subst out.
    exists r. split; [done |]. split; [done |].
    intros Hm. exfalso. apply not_true_iff_false in E. apply E.
    apply existsb_exists. exists r. split; [| done].
    apply list_elem_of_In. by apply list_elem_of_lookup_2 with i.
Qed.

Lemma assign_values_length (mask : row -> bool) (vals : list float) (rs out : list row) :
  assign_values mask vals rs = Return out -> List.length out = List.length rs.
Proof.
  unfold assign_values. destruct (existsb mask rs).
  - apply assign_in_order_length.
  - intros Hrun. apply Return_inj in Hrun. by subst.
Qed.

(** What lines 310-312 do to the row at each position. *)
Lemma write_fixed_lookup (unit : string) (pw : gmap string float) (vals : list float)
    (f f' : frame) :
  write_fixed unit pw vals f = Return f' ->
  columns f' = with_column "unit_fixed" (with_column "average_value_fixed" (columns f)) /\
  List.length (rows f') = List.length (rows f) /\
  forall i r, rows f !! i = Some r ->
    exists r', rows f' !! i = Some r' /\
      (value_unit r <> unit -> r' = r) /\
      (value_unit r = unit -> has_weight pw r = false ->
       r' = set_unit_fixed (Some "mM") r) /\
      (value_unit r = unit -> has_weight pw r = true ->
       exists v, r' = set_unit_fixed (Some "mM") (set_average_value_fixed v r)).
Proof.
  unfold write_fixed. intros Hrun.
  destruct (assign_values _ vals (rows f)) as [out|] eqn:E; [| discriminate].
  cbn [obind] in Hrun. apply Return_inj in Hrun. subst f'.
  unfold loc_set. cbn [rows columns].
  split; [reflexivity |]. split.
  - rewrite length_map. by apply assign_values_length in E.
  - intros i r Hi.
    destruct (assign_values_lookup _ _ _ _ E i r Hi) as (r1 & Hr1 & Hkeep & Hset).
    rewrite list_lookup_fmap, Hr1. cbn [fmap option_fmap option_map].
    eexists. split; [reflexivity |].
    destruct (String.eqb (value_unit r) unit) eqn:Heq; cbn [andb] in *.
    + apply String.eqb_eq in Heq as Hu.
      destruct (has_weight pw r) eqn:Hw.
      * destruct (Hset eq_refl) as [v ->].
        cbn [set_average_value_fixed value_unit]. rewrite Heq.
        split; [done |]. split; [done |]. intros _ _. by exists v.
      * rewrite (Hkeep eq_refl), Heq.
        split; [done |]. split; done.
    + apply String.eqb_neq in Heq as Hu.
      rewrite (Hkeep eq_refl), Heq.
      split; [done |]. split; intros; done.
Qed.

Lemma write_fixed_fixed_cells_only (unit : string) (pw : gmap string float)
    (vals : list float) (f f' : frame) :
  write_fixed unit pw vals f = Return f' -> fixed_cells_only f f'.
Proof.
  intros Hrun.
  destruct (write_fixed_lookup _ _ _ _ _ Hrun) as (Hcols & Hlen & Hpos).
  split; [| split].
  - apply list_eq. intros i. rewrite !list_lookup_fmap.
    destruct (rows f !! i) as [r|] eqn:Hi.
    + destruct (Hpos i r Hi) as (r' & -> & Hne & Hnw & Hw). cbn. f_equal.
      destruct (decide (value_unit r = unit)) as [Hu|Hu]; [| by rewrite (Hne Hu)].
      destruct (has_weight pw r) eqn:E.
      * by destruct (Hw Hu eq_refl) as [v ->].
      * by rewrite (Hnw Hu eq_refl).
    + apply lookup_ge_None in Hi. rewrite <- Hlen in Hi.
      apply lookup_ge_None in Hi. by rewrite Hi.
  - intros c Hc. rewrite Hcols. by do 2 apply with_column_incl.
  - intros Htied r' Hr' Hset.
    apply list_elem_of_lookup_1 in Hr' as [i Hi].
    unfold fixed_tied, tied in Htied.
    destruct (rows f !! i) as [r|] eqn:Hri.
    + destruct (Hpos i r Hri) as (r'' & Hr'' & Hne & Hnw & Hw).
      assert (r'' = r') as -> by congruence.
      destruct (decide (value_unit r = unit)) as [Hu|Hu].
      * destruct (has_weight pw r) eqn:E.
        -- by destruct (Hw Hu eq_refl) as [v ->].
        -- by rewrite (Hnw Hu eq_refl).
      * rewrite (Hne Hu) in Hset |- *. apply Htied; [| done].
        by apply list_elem_of_lookup_2 in Hri.
    + apply lookup_ge_None in Hri. rewrite <- Hlen in Hri.
      apply lookup_ge_None in Hri. congruence.
Qed.

(** ** The conversion loop and the cleaning pass *)

Lemma fixed_cells_only_refl (f : frame) : fixed_cells_only f f.
Proof. by repeat split. Qed.

Lemma fixed_cells_only_trans (f1 f2 f3 : frame) :
  fixed_cells_only f1 f2 -> fixed_cells_only f2 f3 -> fixed_cells_only f1 f3.
Proof.
  intros (Hr1 & Hc1 & Ht1) (Hr2 & Hc2 & Ht2).
  split; [congruence |]. split; [naive_solver | tauto].
Qed.

Lemma heap_fixed_cells_only_refl (r : nat) (h : heap) : heap_fixed_cells_only r h h.
Proof.
  split; [done |]. split; [done |].
  intros f Hf. exists f. split; [done | apply fixed_cells_only_refl].
Qed.

Lemma heap_fixed_cells_only_trans (r : nat) (h1 h2 h3 : heap) :
  heap_fixed_cells_only r h1 h2 -> heap_fixed_cells_only r h2 h3 ->
  heap_fixed_cells_only r h1 h3.
Proof.
  intros (Hl1 & Ho1 & Hf1) (Hl2 & Ho2 & Hf2).
  split; [congruence |]. split.
  - intros r' Hne. by rewrite Ho2, Ho1.
  - intros f Hf. destruct (Hf1 f Hf) as (f2 & Hf2' & Hrel1).
    destruct (Hf2 f2 Hf2') as (f3 & Hf3 & Hrel2).
    exists f3. split; [done |]. by apply (fixed_cells_only_trans f f2 f3).
Qed.

(** One turn of the loop, whatever [values_to_SI] gives. *)
Lemma correct_unit_heap (self : Cleaner) (pw : gmap string float) (unit : string)
    (h : heap) :
  heap_fixed_cells_only (df self) h (snd (correct_unit self pw unit h)).
Proof.
  unfold correct_unit, mbind, lift, read.
  destruct (unit_args unit) as [args_|e]; [| apply heap_fixed_cells_only_refl].
  destruct (values_to_SI _ _ _) as [vals|e]; [| apply heap_fixed_cells_only_refl].
  unfold update.
  destruct (write_fixed unit pw vals (h !!! df self)) as [f'|e] eqn:E;
    [| apply heap_fixed_cells_only_refl].
  cbn [snd]. split; [apply length_insert |]. split.
  - intros r' Hne. by apply list_lookup_insert_ne.
  - intros f Hf. exists f'. split; [by apply (insert_lookup_same _ _ f) |].
    rewrite (list_lookup_total_correct _ _ _ Hf) in E.
    by apply write_fixed_fixed_cells_only in E.
Qed.

Lemma for_each_heap (self : Cleaner) (pw : gmap string float) (units : list string)
    (h : heap) :
  heap_fixed_cells_only (df self) h (snd (for_each units (correct_unit self pw) h)).
Proof.
  revert h. induction units as [|u units IH]; intros h; cbn [for_each].
  - apply heap_fixed_cells_only_refl.
  - unfold mbind. pose proof (correct_unit_heap self pw u h) as Hstep.
    destruct (correct_unit self pw u h) as [[[]|e] h1]; cbn [snd] in Hstep |- *.
    + by apply (heap_fixed_cells_only_trans _ h h1).
    + done.
Qed.

(** The outcome of [correct_units]: the loop leaves a heap [h1], and either
    an exception came out of the loop or the frame is copied into a new
    object. *)
Lemma correct_units_run (self : Cleaner) (units : list string) (pw : gmap string float)
    (h : heap) :
  exists h1,
    heap_fixed_cells_only (df self) h h1 /\
    ((exists e, correct_units self units pw h = (Raise e, h1)) \/
     correct_units self units pw h
       = (Return (List.length h1), (h1 ++ [h1 !!! df self])%list)) /\
    (units = [] -> h1 = h /\
       correct_units self units pw h
         = (Return (List.length h), (h ++ [h !!! df self])%list)).
Proof.
  pose proof (for_each_heap self pw units h) as Hrel.
  unfold correct_units, mbind.
  destruct (for_each units (correct_unit self pw) h) as [[[]|e] h1] eqn:E;
    cbn [snd] in Hrel; exists h1; (split; [done |]); split.
  - right. reflexivity.
  - intros ->. cbn in E. injection E as <-. done.
  - left. by exists e.
  - intros ->. cbn in E. discriminate.
Qed.

Lemma Forall_List_filter {A} (P : A -> Prop) (p : A -> bool) (l : list A) :
  Forall P l -> Forall P (List.filter p l).
Proof.
  induction 1 as [|x l Hx _ IH]; cbn [List.filter]; [constructor |].
  destruct (p x); [by constructor | done].
Qed.

Lemma Forall_loc_set (P : row -> Prop) (name : string) (mask : row -> bool)
    (upd : row -> row) (f : frame) :
  (forall r, P r -> P (upd r)) ->
  Forall P (rows f) -> Forall P (rows (loc_set name mask upd f)).
Proof.
  intros Hupd Hf. unfold loc_set. cbn [rows].
  apply Forall_fmap. eapply Forall_impl; [exact Hf |].
  intros r Hr. cbn. destruct (mask r); [by apply Hupd | done].
Qed.

(** The row filter and the two time steps keep a property of rows that does
    not read the three time cells. *)
Lemma time_normalised_Forall (P : row -> Prop) (f : frame) :
  (forall r x, P r -> P (set_age_at_start_days x r)) ->
  (forall r x, P r -> P (set_timepoint_days x r)) ->
  (forall r x, P r -> P (set_timepoint_age_days x r)) ->
  Forall P (rows f) -> Forall P (rows (time_normalised f)).
Proof.
  intros Ha Ht Hs Hf.
  assert (Hassign :
    Forall P (rows (timepoint_assign (animal_age_frame (remove_nans_frame f))))).
  { unfold timepoint_assign, animal_age_frame. cbv zeta.
    repeat (apply Forall_loc_set; [intros; by first [apply Ha | apply Ht] |]).
    unfold remove_nans_frame, dropna_timepoint_age, drop_labels. cbn [rows].
    by do 2 apply Forall_List_filter. }
  unfold time_normalised, timepoint_state, timepoint_frame, sum_columns.
  destruct (sum_last_two _) as [total|e]; cbn [obind]; [| done].
  apply Forall_loc_set; [intros; by apply Hs | done].
Qed.

Lemma time_normalised_columns (data : list observation) :
  columns (time_normalised (DataFrame data))
  = ["age_at_start(days)"; "timepoint(days)"; "timepoint_age(days)"].
Proof. reflexivity. Qed.

Lemma time_normalised_tied (data : list observation) :
  fixed_tied (time_normalised (DataFrame data)).
Proof.
  intros r Hr.
  assert (H : Forall tied (rows (time_normalised (DataFrame data)))).
  { apply time_normalised_Forall; try (intros ? ? H; exact H).
    unfold DataFrame. cbn [rows]. apply Forall_fmap, Forall_forall.
    intros o _. intros Hset. discriminate Hset. }
  rewrite Forall_forall in H. by apply H.
Qed.

(** The cleaning pass up to the conversion loop, when line 102 returns. *)
Lemma clean_dataframe_run (get_compounds : string -> list compound) (self : Cleaner)
    (h : heap) (f f0 : frame) :
  h !! df self = Some f ->
  timepoint_frame (animal_age_frame (remove_nans_frame f)) = Return f0 ->
  clean_dataframe get_compounds self h
  = correct_units self (concentration_units_of f0)
      (get_parameter_weights get_compounds
         (parameters_with_units (concentration_units_of f0) f0))
      (<[df self := f0]> h).
Proof.
  intros H Hf0. unfold clean_dataframe.
  rewrite (mbind_run _ _ _ _ _ (remove_nans_run _ _ _ H)).
  pose proof (insert_lookup_same _ _ _ (remove_nans_frame f) H) as H1.
  rewrite (mbind_run _ _ _ _ _ (animal_age_run _ _ _ H1)).
  rewrite (list_insert_insert_eq (A := frame)).
  pose proof (insert_lookup_same _ _ _ (animal_age_frame (remove_nans_frame f)) H) as H2.
  pose proof (timepoint_run _ _ _ H2) as Htp. rewrite Hf0 in Htp.
  rewrite (mbind_run _ _ _ _ _ Htp).
  rewrite (list_insert_insert_eq (A := frame)).
  pose proof (insert_lookup_same _ _ _ f0 H) as H3.
  assert (Hunits :
    get_concentration_units self (<[df self := f0]> h)
    = (Return (concentration_units_of f0), <[df self := f0]> h)).
  { unfold get_concentration_units.
    by rewrite (mbind_run _ _ _ _ _ (read_run _ _ _ H3)). }
  rewrite (mbind_run _ _ _ _ _ Hunits).
  by rewrite (mbind_run _ _ _ _ _ (read_run _ _ _ H3)).
Qed.

Lemma clean_dataframe_fresh (get_compounds : string -> list compound) (self : Cleaner)
    (h : heap) (data : list observation) :
  h !! df self = Some (DataFrame data) ->
  clean_dataframe get_compounds self h
  = correct_units self (concentration_units_of (time_normalised (DataFrame data)))
      (get_parameter_weights get_compounds
         (parameters_with_units
            (concentration_units_of (time_normalised (DataFrame data)))
            (time_normalised (DataFrame data))))
      (<[df self := time_normalised (DataFrame data)]> h).
Proof.
  intros H. apply (clean_dataframe_run _ _ _ _ _ H), time_normalised_fresh.
Qed.

(** The conversion as the program runs it: nothing for an empty list of
    units, an exception at the first unit otherwise; the frame is not
    written. *)
Lemma correct_units_outcome (self : Cleaner) (units : list string)
    (pw : gmap string float) (h : heap) :
  match units with
  | [] => correct_units self units pw h
          = (Return (List.length h), (h ++ [h !!! df self])%list)
  | _ :: _ => exists e, correct_units self units pw h = (Raise e, h)
  end.
Proof.
  destruct units as [|u us]; [reflexivity |].
  destruct (correct_unit_raises self pw u h) as [e He]. exists e.
  unfold correct_units, mbind. cbn [for_each]. unfold mbind. by rewrite He.
Qed.

Lemma correct_units_frame (self : Cleaner) (units : list string)
    (pw : gmap string float) (h : heap) (f : frame) :
  h !! df self = Some f ->
  snd (correct_units self units pw h) !! df self = Some f.
Proof.
  intros H. pose proof (correct_units_outcome self units pw h) as Ho.
  destruct units as [|u us].
  - rewrite Ho. by apply lookup_app_l_Some.
  - destruct Ho as [e ->]. done.
Qed.

(** The fixed cells a cleaning pass finds on the caller's observations are
    missing, and no step before the conversion writes them. *)
Lemma time_normalised_fixed_missing (data : list observation) (r : row) :
  r ∈ rows (time_normalised (DataFrame data)) ->
  isna (average_value_fixed r) = true /\ unit_fixed r = None /\
  inputs_of r ∈ data.
Proof.
  intros Hr.
  assert (H : Forall (fun r => isna (average_value_fixed r) = true /\
                               unit_fixed r = None /\ inputs_of r ∈ data)
                     (rows (time_normalised (DataFrame data)))).
  { apply time_normalised_Forall; try (intros ? ? H; exact H).
    unfold DataFrame. cbn [rows]. apply Forall_fmap, Forall_forall.
    intros o Ho. cbn. split; [reflexivity |]. split; [reflexivity |].
    by destruct o. }
  rewrite Forall_forall in H. by apply H.
Qed.

(** C3: the conversion writes nothing for a row whose parameter has no
    entry in the weight table.  Whatever its outcome, [correct_units] leaves
    such a row of a listed unit with the 'average_value_fixed', 'unit_fixed'
    and value unit it had; after a cleaning pass over the caller's
    observations every row has both fixed cells missing and the inputs of one
    of the observations; so it is for a row in "mg/dL" whose parameter the
    lookup does not know.  (The call at line 308 raises before the two
    assignments of lines 310-312 are reached.) *)
Theorem C3_rows_without_weight_untouched :
  (forall (self : Cleaner) (units : list string) (pw : gmap string float)
          (h : heap) (f : frame) (res : outcome nat) (h' : heap),
      h !! df self = Some f ->
      correct_units self units pw h = (res, h') ->
      exists f',
        h' !! df self = Some f' /\
        forall i r,
          rows f !! i = Some r ->
          value_unit r ∈ units ->
          pw !! parameter r = None ->
          exists r',
            rows f' !! i = Some r' /\
            average_value_fixed r' = average_value_fixed r /\
            unit_fixed r' = unit_fixed r /\
            value_unit r' = value_unit r) /\
  (forall (get_compounds : string -> list compound) (self : Cleaner) (h : heap)
          (data : list observation) (res : outcome nat) (h' : heap),
      h !! df self = Some (DataFrame data) ->
      clean_dataframe get_compounds self h = (res, h') ->
      exists f',
        h' !! df self = Some f' /\
        forall r, r ∈ rows f' ->
          isna (average_value_fixed r) = true /\
          unit_fixed r = None /\
          inputs_of r ∈ data) /\
  (Spec.concentration_like "mg/dL" = true /\
   get_parameter_weights glucose_only ["Unobtainium"] !! "Unobtainium" = None /\
   clean_dataframe glucose_only (example_cleaner 0) [DataFrame [obs_unknown]]
   = (Raise AttributeError,
      [Frame ["age_at_start(days)"; "timepoint(days)"; "timepoint_age(days)"]
             [Row 0 1 "Days" 8 "Weeks" "Unobtainium" 7 "mg/dL" 56 1 57 nan None]])).
Proof.
  split; [| split].
  - intros self units pw h f res h' H Hrun. exists f. split.
    + pose proof (correct_units_frame self units pw h f H) as Hf.
      by rewrite Hrun in Hf.
    + intros i r Hi _ _. by exists r.
  - intros gc self h data res h' H Hrun.
    rewrite (clean_dataframe_fresh _ _ _ _ H) in Hrun.
    exists (time_normalised (DataFrame data)). split.
    + pose proof (correct_units_frame self
                    (concentration_units_of (time_normalised (DataFrame data)))
                    (get_parameter_weights gc
                       (parameters_with_units
                          (concentration_units_of (time_normalised (DataFrame data)))
                          (time_normalised (DataFrame data))))
                    _ _ (insert_lookup_same _ _ _ (time_normalised (DataFrame data)) H))
        as Hf.
      by rewrite Hrun in Hf.
    + apply time_normalised_fixed_missing.
  - split; [reflexivity |]. split; [vm_compute; reflexivity |].
    vm_compute. reflexivity.
Qed.

(** C4: after a cleaning pass, whether it returned or raised, every row of
    the Cleaner's frame with a value in 'average_value_fixed' has "mM" in
    'unit_fixed', and so has every row of the returned copy; and the two
    assignments that end a turn of the conversion loop keep this tie whatever
    the list of values they are given. *)
Theorem C4_fixed_value_has_unit_mM (get_compounds : string -> list compound)
    (self : Cleaner) (h : heap) (data : list observation) :
  h !! df self = Some (DataFrame data) ->
  (forall res h',
      clean_dataframe get_compounds self h = (res, h') ->
      fixed_tied (h' !!! df self) /\
      (forall r', res = Return r' -> fixed_tied (h' !!! r'))) /\
  (forall unit parameter_weight list_of_vals f f',
      fixed_tied f ->
      write_fixed unit parameter_weight list_of_vals f = Return f' ->
      fixed_tied f').
Proof.
  intros H. split.
  - intros res h' Hrun. rewrite (clean_dataframe_fresh _ _ _ _ H) in Hrun.
    set (f0 := time_normalised (DataFrame data)) in *.
    pose proof (insert_lookup_same _ _ _ f0 H) as H0.
    destruct (correct_units_run self (concentration_units_of f0)
                (get_parameter_weights get_compounds
                   (parameters_with_units (concentration_units_of f0) f0))
                (<[df self := f0]> h))
      as (h1 & (Hlen & _ & Hf) & Hout & _).
    destruct (Hf f0 H0) as (f1 & Hf1 & _ & _ & Htied).
    specialize (Htied (time_normalised_tied data)).
    pose proof (lookup_lt_Some _ _ _ Hf1) as Hlt.
    destruct Hout as [[e Hraise]|Hret]; [rewrite Hrun in Hraise | rewrite Hrun in Hret].
    + injection Hraise as -> ->.
      rewrite (list_lookup_total_correct _ _ _ Hf1).
      split; [done | intros r' Hr'; discriminate Hr'].
    + injection Hret as -> ->.
      rewrite (list_lookup_total_correct _ _ _ Hf1).
      split.
      * by rewrite (list_lookup_total_correct _ _ _ (lookup_app_l_Some _ _ _ _ Hf1)).
      * intros r' Hr'. apply Return_inj in Hr'. subst r'.
        by rewrite (list_lookup_total_correct (h1 ++ [f1]) (List.length h1) f1
                      (list_lookup_middle h1 [] f1 _ eq_refl)).
  - intros unit pw vals f f' Htied Hrun.
    by apply (write_fixed_fixed_cells_only _ _ _ _ _ Hrun).
Qed.

Lemma C4_fixed_value_witness :
  [DataFrame [obs_unmatched_age]] !! df (example_cleaner 0)
    = Some (DataFrame [obs_unmatched_age]) /\
  fixed_tied (snd (clean_dataframe glucose_only (example_cleaner 0)
                     [DataFrame [obs_unmatched_age]]) !!! 0%nat) /\
  fixed_tied (Frame ["average_value_fixed"; "unit_fixed"]
                [set_unit_fixed (Some "mM")
                   (set_average_value_fixed 0.25 (load obs_mg_dL))]).
Proof.
  split; [reflexivity |].
  destruct (C4_fixed_value_has_unit_mM glucose_only (example_cleaner 0)
              [DataFrame [obs_unmatched_age]] [obs_unmatched_age] eq_refl)
    as [Hpass Hstep].
  split.
  - exact (proj1 (Hpass _ _ (surjective_pairing _))).
  - apply (Hstep "mg/dL" (<["Glucose" := 180.16%float]> ∅) [0.25%float]
                 (DataFrame [obs_mg_dL])).
    + intros r Hr Hset. apply list_elem_of_In in Hr as [<-|[]]. discriminate Hset.
    + reflexivity.
Defined.

(** C10, as amended: [clean_dataframe] works in place on the frame given at
    construction: behind the original reference the rows are the filtered
    rows with their time cells filled, the three time columns exist, and no
    other object of the heap changes; when the call returns, the result is a
    reference to a new object holding a copy of that frame, so that writing
    to the returned object leaves the Cleaner's frame as it is; and when no
    value unit is concentration-like the call returns, the frame is exactly
    the filtered and time-normalised one, its derived columns are the three
    time columns only, 'average_value_fixed' and 'unit_fixed' do not exist
    and every fixed cell is missing. *)
Theorem C10_in_place_and_copy (get_compounds : string -> list compound)
    (self : Cleaner) (h : heap) (data : list observation) :
  h !! df self = Some (DataFrame data) ->
  forall res h',
    clean_dataframe get_compounds self h = (res, h') ->
    exists f',
      h' !! df self = Some f' /\
      map erase_fixed (rows f')
        = map erase_fixed (rows (time_normalised (DataFrame data))) /\
      (forall c, c ∈ ["age_at_start(days)"; "timepoint(days)"; "timepoint_age(days)"] ->
                 c ∈ columns f') /\
      (forall r, r <> df self -> (r < List.length h)%nat -> h' !! r = h !! r) /\
      (forall r', res = Return r' ->
                  r' = List.length h /\ r' <> df self /\ h' !! r' = Some f' /\
                  forall g, <[r' := g]> h' !! df self = Some f') /\
      (concentration_units_of (time_normalised (DataFrame data)) = [] ->
       res = Return (List.length h) /\
       f' = time_normalised (DataFrame data) /\
       columns f' = ["age_at_start(days)"; "timepoint(days)"; "timepoint_age(days)"] /\
       ("average_value_fixed" ∉ columns f') /\
       ("unit_fixed" ∉ columns f') /\
       forall r, r ∈ rows f' ->
                 isna (average_value_fixed r) = true /\ unit_fixed r = None).
Proof.
  intros H res h' Hrun. rewrite (clean_dataframe_fresh _ _ _ _ H) in Hrun.
  set (f0 := time_normalised (DataFrame data)) in *.
  pose proof (insert_lookup_same _ _ _ f0 H) as H0.
  pose proof (lookup_lt_Some _ _ _ H) as Hvalid.
  destruct (correct_units_run self (concentration_units_of f0)
              (get_parameter_weights get_compounds
                 (parameters_with_units (concentration_units_of f0) f0))
              (<[df self := f0]> h))
    as (h1 & (Hlen & Hother & Hf) & Hout & Hnil).
  rewrite (length_insert (A := frame)) in Hlen.
  destruct (Hf f0 H0) as (f1 & Hf1 & Hrows & Hcols & _).
  assert (Hkeep : forall r, r <> df self -> h1 !! r = h !! r).
  { intros r Hne. rewrite Hother by done. by apply list_lookup_insert_ne. }
  assert (Hlast :
    concentration_units_of f0 = [] ->
    res = Return (List.length h) /\
    f1 = f0 /\
    columns f1 = ["age_at_start(days)"; "timepoint(days)"; "timepoint_age(days)"] /\
    ("average_value_fixed" ∉ columns f1) /\
    ("unit_fixed" ∉ columns f1) /\
    forall r, r ∈ rows f1 ->
              isna (average_value_fixed r) = true /\ unit_fixed r = None).
  { intros Hno. destruct (Hnil Hno) as [-> Hret]. rewrite Hrun in Hret.
    assert (f1 = f0) as -> by congruence.
    split; [by rewrite (length_insert (A := frame)) in Hret; congruence |].
    split; [done |]. split; [apply time_normalised_columns |].
    change (columns f0) with (columns (time_normalised (DataFrame data))).
    rewrite (time_normalised_columns data).
    split; [| split].
    - intros Hc. apply py_in_elem_of in Hc. discriminate Hc.
    - intros Hc. apply py_in_elem_of in Hc. discriminate Hc.
    - intros r Hr. apply time_normalised_fixed_missing in Hr. tauto. }
  exists f1.
  destruct Hout as [[e Hraise]|Hret]; [rewrite Hrun in Hraise | rewrite Hrun in Hret].
  - injection Hraise as -> ->.
    split; [done |]. split; [done |]. split; [intros c Hc; by apply Hcols |].
    split; [intros r Hne _; by apply Hkeep |].
    split; [intros r' Hr'; discriminate Hr' | done].
  - injection Hret as -> ->.
    split; [by apply lookup_app_l_Some |]. split; [done |].
    split; [intros c Hc; by apply Hcols |].
    split.
    { intros r Hne Hlt. rewrite lookup_app_l by lia. by apply Hkeep. }
    split; [| done].
    intros r' Hr'. apply Return_inj in Hr'. subst r'.
    split; [done |]. split; [lia |]. split.
    + rewrite (list_lookup_total_correct _ _ _ Hf1).
      by apply list_lookup_middle.
    + intros g. rewrite list_lookup_insert_ne by lia. by apply lookup_app_l_Some.
Qed.

Lemma C10_in_place_and_copy_witness :
  [DataFrame [obs_unmatched_age]] !! df (example_cleaner 0)
    = Some (DataFrame [obs_unmatched_age]) /\
  exists f',
    snd (clean_dataframe glucose_only (example_cleaner 0) [DataFrame [obs_unmatched_age]])
      !! 0%nat = Some f' /\
    fst (clean_dataframe glucose_only (example_cleaner 0) [DataFrame [obs_unmatched_age]])
      = Return 1%nat /\
    "unit_fixed" ∉ columns f'.
Proof.
  split; [reflexivity |].
  destruct (C10_in_place_and_copy glucose_only (example_cleaner 0)
              [DataFrame [obs_unmatched_age]] [obs_unmatched_age] eq_refl
              _ _ (surjective_pairing _))
    as (f' & Hf' & _ & _ & _ & _ & Hret).
  exists f'. split; [exact Hf' |].
  destruct (Hret eq_refl) as (Hres & _ & _ & _ & Hun & _).
  split; [exact Hres | exact Hun].
Defined.

(** C10 as stated fails: on a frame without a concentration-like value unit
    the call returns a copy, but only the three time columns have been added;
    'average_value_fixed' and 'unit_fixed' do not exist. *)
Lemma C10_in_place_and_copy_counterexample :
  exists f',
    clean_dataframe glucose_only (example_cleaner 0) [DataFrame [obs_unmatched_age]]
      = (Return 1%nat, [f'; f']) /\
    columns f' = ["age_at_start(days)"; "timepoint(days)"; "timepoint_age(days)"] /\
    py_in "average_value_fixed" (columns f') = false /\
    py_in "unit_fixed" (columns f') = false.
Proof. eexists. repeat split; vm_compute; reflexivity. Qed.

(** * Additional properties *)

(** ** Splitting a unit string *)

Lemma split_length (sep : ascii) (s : string) :
  List.length (split sep s) = S (count_char sep s).
Proof.
  induction s as [|c s IH]; [reflexivity |].
  cbn [split count_char]. destruct (Ascii.eqb c sep).
  - cbn. by rewrite IH.
  - destruct (split sep s) as [|w ws]; [discriminate IH |]. cbn in *. lia.
Qed.

Lemma split_join (sep : ascii) (s : string) :
  join (String sep EmptyString) (split sep s) = s.
Proof.
  induction s as [|c s IH]; [reflexivity |].
  cbn [split]. destruct (Ascii.eqb_spec c sep) as [->|Hne].
  - pose proof (split_length sep s) as Hlen.
    destruct (split sep s) as [|w ws]; [discriminate Hlen |].
    cbn [join]. cbn [join] in IH. by rewrite IH.
  - pose proof (split_length sep s) as Hlen.
    destruct (split sep s) as [|w ws]; [discriminate Hlen |].
    destruct ws as [|w' ws]; cbn [join] in IH |- *; by rewrite <- IH.
Qed.

Lemma split_parts_free (sep : ascii) (s : string) :
  Forall (fun w => count_char sep w = 0) (split sep s).
Proof.
  induction s as [|c s IH]; [by repeat constructor |].
  cbn [split]. destruct (Ascii.eqb c sep) eqn:E.
  - by constructor.
  - destruct (split sep s) as [|w ws].
    + repeat constructor. cbn. by rewrite E.
    + inversion IH as [|? ? Hw Hws]; subst. constructor; [| done].
      cbn. by rewrite E, Hw.
Qed.

(** X14: splitting on "/" and joining with "/" gives the unit string back;
    the number of parts is the number of "/" plus one and no part holds a
    "/". *)
Theorem X14_split_join_round_trip (unit : string) :
  join "/" (split "/" unit) = unit /\
  List.length (split "/" unit) = S (count_char "/" unit) /\
  Forall (fun w => count_char "/" w = 0) (split "/" unit).
Proof.
  split; [apply split_join |]. split; [apply split_length | apply split_parts_free].
Qed.

(** ** The token decomposition *)

Lemma unit_args_outcome (unit : string) :
  if (3 <=? count_char "/" unit)%nat
  then unit_args unit = Raise ValueError
  else exists args_, unit_args unit = Return args_.
Proof.
  pose proof (split_length "/" unit) as Hlen. unfold unit_args.
  destruct (split "/" unit) as [|a [|b [|c [|d l]]]]; cbn in Hlen.
  - discriminate.
  - assert (count_char "/" unit = 0)%nat as -> by lia. cbn. eauto.
  - assert (count_char "/" unit = 1)%nat as -> by lia. cbn. eauto.
  - assert (count_char "/" unit = 2)%nat as -> by lia. cbn. eauto.
  - destruct (Nat.leb_spec 3 (count_char "/" unit)) as [_|?]; [| lia].
    reflexivity.
Qed.

(** X3: the token decomposition raises exactly for the unit strings with
    three or more "/" (four or more parts), and then it is a ValueError; every
    other string, the empty one included, gets a token list. *)
Theorem X3_unit_args_raises_iff_four_parts (unit : string) :
  (unit_args unit = Raise ValueError <-> (3 <= count_char "/" unit)%nat) /\
  ((exists args_, unit_args unit = Return args_) <-> (count_char "/" unit < 3)%nat) /\
  (forall e, unit_args unit = Raise e -> e = ValueError).
Proof.
  pose proof (unit_args_outcome unit) as H.
  destruct (Nat.leb_spec 3 (count_char "/" unit)) as [Hge|Hlt].
  - rewrite H. split; [tauto |]. split.
    + split; [intros [? ?]; discriminate | lia].
    + intros e He. congruence.
  - destruct H as [args_ H]. rewrite H. split.
    + split; [discriminate | lia].
    + split; [split; eauto | discriminate].
Qed.

Lemma lower_ascii_idem (c : ascii) : lower_ascii (lower_ascii c) = lower_ascii c.
Proof. destruct c as [[] [] [] [] [] [] [] []]; reflexivity. Qed.

Lemma lower_ascii_slash (c : ascii) :
  Ascii.eqb (lower_ascii c) "/" = Ascii.eqb c "/".
Proof. destruct c as [[] [] [] [] [] [] [] []]; reflexivity. Qed.

Lemma lower_idem (s : string) : lower (lower s) = lower s.
Proof.
  induction s as [|c s IH]; [reflexivity |].
  cbn [lower]. by rewrite lower_ascii_idem, IH.
Qed.

Lemma split_lower (s : string) : split "/" (lower s) = map lower (split "/" s).
Proof.
  induction s as [|c s IH]; [reflexivity |].
  cbn [lower split]. rewrite lower_ascii_slash, IH.
  destruct (Ascii.eqb c "/"); [reflexivity |].
  pose proof (split_length "/" s) as Hlen.
  destruct (split "/" s) as [|w ws]; [discriminate Hlen | reflexivity].
Qed.

(** X4: the token decomposition does not depend on the case of the unit
    string. *)
Theorem X4_unit_args_case_insensitive (unit : string) :
  unit_args (lower unit) = unit_args unit.
Proof.
  unfold unit_args. rewrite split_lower, length_map.
  destruct (split "/" unit) as [|a [|b [|c [|d l]]]]; cbn;
    rewrite ?lower_idem; reflexivity.
Qed.

Lemma tokens_in_vocabulary_two (unit_ liter : string) :
  forallb (fun t => py_in t vocabulary) (args_two_parts unit_ liter) = true /\
  (List.length (args_two_parts unit_ liter) <=? 4)%nat = true.
Proof.
  unfold args_two_parts.
  repeat match goal with
         | |- context [if ?c then _ else _] => destruct c
         end; split; reflexivity.
Qed.

Lemma tokens_in_vocabulary_three (unit_ time liter : string) :
  forallb (fun t => py_in t vocabulary) (args_three_parts unit_ time liter) = true /\
  (List.length (args_three_parts unit_ time liter) <=? 4)%nat = true.
Proof.
  unfold args_three_parts.
  repeat match goal with
         | |- context [if ?c then _ else _] => destruct c
         end; split; reflexivity.
Qed.

Lemma tokens_of_one_part (unit_ : string) :
  forallb (fun t => py_in t ["nano"; "micro"; "gram"; "miligram"; "deciliter"])
          (args_one_part unit_) = true /\
  (List.length (args_one_part unit_) <=? 3)%nat = true.
Proof.
  unfold args_one_part.
  repeat match goal with
         | |- context [if ?c then _ else _] => destruct c
         end; split; reflexivity.
Qed.

Lemma forallb_py_in (l voc : list string) :
  forallb (fun t => py_in t voc) l = true -> forall t, t ∈ l -> t ∈ voc.
Proof.
  intros H t Ht. rewrite forallb_forall in H.
  apply py_in_elem_of, H. by apply list_elem_of_In.
Qed.

(** X5: every token the decomposition produces is one of the nine tokens
    [convert_values_to_SI] tests for, and a unit string gets at most four
    tokens; four are reached. *)
Theorem X5_tokens_in_vocabulary (unit : string) (args_ : list string) :
  unit_args unit = Return args_ ->
  (forall t, t ∈ args_ -> t ∈ vocabulary) /\
  (List.length args_ <= 4)%nat /\
  unit_args "mol milligrams u/dL" = Return ["micro"; "mol"; "miligram"; "deciliter"].
Proof.
  intros H.
  assert (Hall : forallb (fun t => py_in t vocabulary) args_ = true /\
                 (List.length args_ <=? 4)%nat = true).
  { unfold unit_args in H.
    destruct (split "/" unit) as [|a [|b [|c [|d l]]]]; cbn in H;
      try discriminate; apply Return_inj in H; subst args_.
    - destruct (tokens_of_one_part (lower a)) as [Hv Hl]. split.
      + apply forallb_forall. intros t Ht. rewrite forallb_forall in Hv.
        specialize (Hv t Ht). apply py_in_elem_of in Hv. apply py_in_elem_of.
        apply list_elem_of_In. apply list_elem_of_In in Hv. cbn in Hv |- *. tauto.
      + apply Nat.leb_le. apply Nat.leb_le in Hl. lia.
    - apply tokens_in_vocabulary_two.
    - apply tokens_in_vocabulary_three. }
  destruct Hall as [Hv Hl]. split; [by apply forallb_py_in |].
  split; [by apply Nat.leb_le | reflexivity].
Qed.

Lemma X5_tokens_in_vocabulary_witness :
  unit_args "ug/mL" = Return ["micro"; "mililiter"] /\
  (forall t, t ∈ ["micro"; "mililiter"] -> t ∈ vocabulary) /\
  (List.length ["micro"; "mililiter"] <= 4)%nat.
Proof.
  split; [reflexivity |].
  destruct (X5_tokens_in_vocabulary "ug/mL" ["micro"; "mililiter"] eq_refl)
    as (Hv & Hl & _).
  split; [exact Hv | exact Hl].
Defined.

Lemma split_no_sep (sep : ascii) (s : string) :
  count_char sep s = 0%nat -> split sep s = [s].
Proof.
  induction s as [|c s IH]; [reflexivity |].
  cbn [count_char split]. destruct (Ascii.eqb c sep); [discriminate |].
  intros H. by rewrite (IH H).
Qed.

(** X6: a unit string without "/" never gets a pico, mol, mililiter or
    minute token: its tokens are among nano, micro, gram, miligram and
    deciliter, at most three of them. *)
Theorem X6_one_part_tokens (unit : string) :
  count_char "/" unit = 0%nat ->
  exists args_,
    unit_args unit = Return args_ /\
    (forall t, t ∈ args_ -> t ∈ ["nano"; "micro"; "gram"; "miligram"; "deciliter"]) /\
    (List.length args_ <= 3)%nat.
Proof.
  intros H. exists (args_one_part (lower unit)).
  unfold unit_args. rewrite (split_no_sep _ _ H). cbn.
  destruct (tokens_of_one_part (lower unit)) as [Hv Hl].
  split; [reflexivity |]. split; [by apply forallb_py_in | by apply Nat.leb_le].
Qed.

Lemma X6_one_part_tokens_witness :
  count_char "/" "pmol" = 0%nat /\
  exists args_,
    unit_args "pmol" = Return args_ /\
    (forall t, t ∈ args_ -> t ∈ ["nano"; "micro"; "gram"; "miligram"; "deciliter"]) /\
    (List.length args_ <= 3)%nat.
Proof. split; [reflexivity |]. exact (X6_one_part_tokens "pmol" eq_refl). Defined.

(** ** The conversion arithmetic *)

(** X1: the converted value depends on the token list only through which
    tokens it holds: order and repetition of the tokens do not matter. *)
Theorem X1_convert_by_membership (value weight : float) (args1 args2 : list string) :
  (forall t, py_in t args1 = py_in t args2) ->
  convert_values_to_SI value weight args1 = convert_values_to_SI value weight args2.
Proof. intros H. unfold convert_values_to_SI. by rewrite !H. Qed.

Lemma X1_convert_by_membership_witness :
  (forall t, py_in t ["miligram"; "deciliter"]
             = py_in t ["deciliter"; "miligram"; "deciliter"]) /\
  convert_values_to_SI 50 180.16 ["miligram"; "deciliter"]
  = convert_values_to_SI 50 180.16 ["deciliter"; "miligram"; "deciliter"].
Proof.
  assert (H : forall t, py_in t ["miligram"; "deciliter"]
                        = py_in t ["deciliter"; "miligram"; "deciliter"]).
  { intros t. unfold py_in. cbn [existsb].
    by destruct (String.eqb t "miligram"), (String.eqb t "deciliter"). }
  split; [exact H | exact (X1_convert_by_membership 50 180.16 _ _ H)].
Defined.

Lemma convert_returns (value weight : float) (arguments : list string) :
  PrimFloat.eqb weight 0 = false ->
  exists x, convert_values_to_SI value weight arguments = Return x.
Proof.
  intros Hw. unfold convert_values_to_SI, py_div. rewrite Hw.
  destruct (py_in "gram" arguments), (py_in "mol" arguments),
    (py_in "miligram" arguments); cbn [obind]; eauto.
Qed.

(** X2: the conversion arithmetic raises only ZeroDivisionError, and exactly
    when the weight is zero and a division by the weight is reached: the gram
    token is present, or the miligram token is present without the mol
    token. *)
Theorem X2_convert_raises_iff (value weight : float) (arguments : list string) :
  (convert_values_to_SI value weight arguments = Raise ZeroDivisionError <->
   PrimFloat.eqb weight 0 = true /\
   (py_in "gram" arguments = true \/
    (py_in "mol" arguments = false /\ py_in "miligram" arguments = true))) /\
  (forall e, convert_values_to_SI value weight arguments = Raise e ->
             e = ZeroDivisionError).
Proof.
  unfold convert_values_to_SI, py_div.
  destruct (PrimFloat.eqb weight 0), (py_in "gram" arguments),
    (py_in "mol" arguments), (py_in "miligram" arguments); cbn [obind];
    (split; [split; [intros H; first [discriminate H | tauto]
                    | intros [H1 [H2|[H2 H3]]];
                      first [discriminate | reflexivity]]
            | intros e He; first [discriminate He | congruence]]).
Qed.

(** ** Weights of the table and the arithmetic *)

Lemma truthy_weights_nonzero (cs : list compound) (w : float) :
  w ∈ truthy_weights cs -> PrimFloat.eqb w 0 = false.
Proof.
  induction cs as [|c cs IH]; [intros H; inversion H |].
  rewrite truthy_weights_cons.
  destruct (molecular_weight c) as [w0|]; [| done].
  destruct (PrimFloat.eqb w0 0) eqn:E; cbn [negb]; [done |].
  rewrite elem_of_cons. intros [->|H]; [done | by apply IH].
Qed.

Lemma table_weight_nonzero (get_compounds : string -> list compound)
    (l : list string) (name : string) (w : float) :
  get_parameter_weights get_compounds l !! name = Some w ->
  name ∈ l /\ w ∈ truthy_weights (get_compounds name).
Proof.
  unfold get_parameter_weights. rewrite parameter_weights_lookup, lookup_empty.
  destruct (decide (name ∈ l)) as [Hin|_]; [| discriminate].
  destruct (last (truthy_weights (get_compounds name))) as [w0|] eqn:E;
    [| discriminate].
  intros H. assert (w0 = w) as -> by congruence.
  split; [done |]. apply last_Some in E as [l' ->].
  apply elem_of_app. right. apply list_elem_of_In. by left.
Qed.

(** X11: every weight stored in the molecular-weight table is non-zero and
    belongs to a name of the list, so the conversion arithmetic run with a
    weight of the table returns a value for every token list: it never
    divides by zero. *)
Theorem X11_table_weight_never_divides_by_zero
    (get_compounds : string -> list compound) (parameter_conc_unit_list : list string)
    (name : string) (w : float) :
  get_parameter_weights get_compounds parameter_conc_unit_list !! name = Some w ->
  name ∈ parameter_conc_unit_list /\
  PrimFloat.eqb w 0 = false /\
  forall value arguments, exists x, convert_values_to_SI value w arguments = Return x.
Proof.
  intros H. apply table_weight_nonzero in H as [Hin Hw].
  apply truthy_weights_nonzero in Hw.
  split; [done |]. split; [done |]. intros v a. by apply convert_returns.
Qed.

Lemma X11_table_weight_witness :
  get_parameter_weights glucose_only ["Glucose"] !! "Glucose" = Some 180.16%float /\
  "Glucose" ∈ ["Glucose"] /\
  PrimFloat.eqb 180.16 0 = false /\
  forall value arguments,
    exists x, convert_values_to_SI value 180.16 arguments = Return x.
Proof.
  assert (H : get_parameter_weights glucose_only ["Glucose"] !! "Glucose"
              = Some 180.16%float) by (vm_compute; reflexivity).
  split; [exact H |].
  exact (X11_table_weight_never_divides_by_zero glucose_only ["Glucose"] "Glucose"
           180.16 H).
Defined.

(** ** values_to_SI on its declared parameters *)

Lemma values_loop_outcome (d : gmap string float) (args : list pyobj)
    (sel : list (string * float)) (acc : list float) :
  values_loop (PyDict d) args sel acc =
  if some_known d sel then Raise NameError else Return acc.
Proof.
  revert acc. induction sel as [|[param value] sel IH]; intros acc; [reflexivity |].
  cbn [values_loop some_known existsb fst in_keys obind].
  destruct (bool_decide (is_Some (d !! param))) eqn:E; cbn [orb].
  - apply bool_decide_eq_true in E as [w Hw].
    cbn [getitem]. rewrite Hw. reflexivity.
  - apply IH.
Qed.

(** X12: called on a frame and a dict, [values_to_SI] returns the empty list
    when no row of the frame has its parameter among the keys of the dict and
    raises NameError otherwise, so it never returns a converted value; called
    with anything but a frame first, the Cleaner instance included, it raises
    AttributeError. *)
Theorem X12_values_to_SI_outcome (cols : list string) (sel : list (string * float))
    (d : gmap string float) (args : list pyobj) :
  values_to_SI (PyFrame cols sel) (PyDict d) args =
    (if some_known d sel then Raise NameError else Return []) /\
  (forall self parameter_weight,
      values_to_SI (PyCleaner self) parameter_weight args = Raise AttributeError) /\
  (forall vals,
      values_to_SI (PyFrame cols sel) (PyDict d) args = Return vals -> vals = []).
Proof.
  assert (H : values_to_SI (PyFrame cols sel) (PyDict d) args =
              (if some_known d sel then Raise NameError else Return [])).
  { unfold values_to_SI. cbn [iterrows obind]. apply values_loop_outcome. }
  split; [exact H |]. split; [reflexivity |].
  intros vals Hv. rewrite H in Hv.
  destruct (some_known d sel); [discriminate |]. by apply Return_inj in Hv.
Qed.

(** ** The row filter, once more *)

Lemma List_filter_all {A} (p : A -> bool) (l : list A) :
  (forall x, In x l -> p x = true) -> List.filter p l = l.
Proof.
  induction l as [|x l IH]; intros H; [reflexivity |].
  cbn [List.filter]. rewrite (H x (or_introl eq_refl)). f_equal.
  apply IH. intros y Hy. apply H. by right.
Qed.

Lemma List_filter_none {A} (p : A -> bool) (l : list A) :
  (forall x, In x l -> p x = false) -> List.filter p l = [].
Proof.
  induction l as [|x l IH]; intros H; [reflexivity |].
  cbn [List.filter]. rewrite (H x (or_introl eq_refl)).
  apply IH. intros y Hy. apply H. by right.
Qed.

Lemma remove_nans_frame_no_negative (f : frame) :
  negative_timepoint_index (remove_nans_frame f) = [].
Proof.
  unfold negative_timepoint_index.
  rewrite (List_filter_none _ (rows (remove_nans_frame f))); [reflexivity |].
  intros r Hr. apply list_elem_of_In in Hr.
  apply remove_nans_frame_rows in Hr as (Hin & Hs & _).
  destruct (PrimFloat.ltb (timepoint r) 0) eqn:E; [| reflexivity].
  rewrite (negative_shares_label f r Hin E) in Hs. discriminate.
Qed.

Lemma remove_nans_frame_idem (f : frame) :
  remove_nans_frame (remove_nans_frame f) = remove_nans_frame f.
Proof.
  unfold remove_nans_frame at 1.
  rewrite remove_nans_frame_no_negative.
  unfold dropna_timepoint_age, drop_labels. cbn [rows columns existsb negb].
  rewrite (List_filter_all (fun _ => true)) by done.
  rewrite List_filter_all.
  - unfold remove_nans_frame, dropna_timepoint_age, drop_labels. reflexivity.
  - intros r Hr. apply list_elem_of_In, remove_nans_frame_rows in Hr.
    apply andb_true_iff. tauto.
Qed.

(** X7: the row filter is idempotent: running it a second time changes
    nothing, because after one run no row has a negative timepoint or a
    missing timepoint or animal age. *)
Theorem X7_remove_nans_idempotent (self : Cleaner) (h : heap) (f : frame) :
  h !! df self = Some f ->
  (remove_nans self ;;; remove_nans self) h = remove_nans self h /\
  exists f',
    snd (remove_nans self h) !! df self = Some f' /\
    negative_timepoint_index f' = [] /\
    Forall (fun r => notna (timepoint r) = true /\ notna (animal_age r) = true)
           (rows f').
Proof.
  intros H. pose proof (remove_nans_run self h f H) as Hrun.
  pose proof (insert_lookup_same _ _ _ (remove_nans_frame f) H) as H1.
  split.
  - rewrite (mbind_run _ _ _ _ _ Hrun), (remove_nans_run _ _ _ H1), Hrun.
    by rewrite remove_nans_frame_idem, (list_insert_insert_eq (A := frame)).
  - exists (remove_nans_frame f). rewrite Hrun. cbn [snd].
    split; [done |]. split; [apply remove_nans_frame_no_negative |].
    apply Forall_forall. intros r Hr.
    apply remove_nans_frame_rows in Hr. tauto.
Qed.

Lemma X7_remove_nans_idempotent_witness :
  [DataFrame [obs_zero_no_age; obs_mg_dL]] !! df (example_cleaner 0)
    = Some (DataFrame [obs_zero_no_age; obs_mg_dL]) /\
  (remove_nans (example_cleaner 0) ;;; remove_nans (example_cleaner 0))
    [DataFrame [obs_zero_no_age; obs_mg_dL]]
  = remove_nans (example_cleaner 0) [DataFrame [obs_zero_no_age; obs_mg_dL]].
Proof.
  split; [reflexivity |].
  exact (proj1 (X7_remove_nans_idempotent (example_cleaner 0)
                  [DataFrame [obs_zero_no_age; obs_mg_dL]]
                  (DataFrame [obs_zero_no_age; obs_mg_dL]) eq_refl)).
Defined.

(** ** The unit tables of the time normaliser *)

Ltac decide_unit u :=
  repeat (cbn [existsb orb animal_age_unit animal_age timepoint_unit timepoint
               set_age_at_start_days set_timepoint_days];
          match goal with
          | |- context [String.eqb u ?lit] =>
              destruct (String.eqb_spec u lit) as [->|?]; [vm_compute; reflexivity |]
          end).

Lemma animal_age_frame_rows (f : frame) :
  rows (animal_age_frame f) = map age_row (rows f).
Proof.
  unfold animal_age_frame, loc_set. cbn [rows]. rewrite !map_map.
  apply map_ext. intros [l t tu a u p v vu x1 x2 x3 x4 x5].
  unfold age_row, age_in_days, py_in, age_weeks, age_months, age_years, age_days.
  cbn [animal_age_unit animal_age].
  decide_unit u. reflexivity.
Qed.

Lemma timepoint_assign_rows (f : frame) :
  rows (timepoint_assign f) = map timepoint_day_row (rows f).
Proof.
  unfold timepoint_assign, loc_set. cbn [rows]. rewrite !map_map.
  apply map_ext. intros [l t tu a u p v vu x1 x2 x3 x4 x5].
  unfold timepoint_day_row, timepoint_in_days, py_in,
    tp_weeks, tp_months, tp_years, tp_hours, tp_minutes, tp_days.
  cbn [timepoint_unit timepoint].
  decide_unit tu. reflexivity.
Qed.

(** The rows the timepoint step leaves in place are the rows after the six
    assignments, up to the cell 'timepoint_age(days)'. *)
Lemma timepoint_state_rows (f : frame) :
  exists total : option (row -> float),
    rows (timepoint_state f)
    = map (fun r => match total with
                    | Some t => set_timepoint_age_days (t (timepoint_day_row r))
                                                        (timepoint_day_row r)
                    | None => timepoint_day_row r
                    end) (rows f).
Proof.
  unfold timepoint_state, timepoint_frame, sum_columns.
  destruct (sum_last_two _) as [total|e]; cbn [obind].
  - exists (Some total). unfold loc_set. cbn [rows].
    by rewrite timepoint_assign_rows, map_map.
  - exists None. apply timepoint_assign_rows.
Qed.

(** X8: the four unit lists of the animal-age step are pairwise disjoint,
    so the four assignments act as one table lookup: in place, every row gets
    age x 7, x 30, x 360 or x 1 in 'age_at_start(days)' according to the list
    its unit is in, and a row whose unit is in no list keeps the cell it had
    (missing, in a fresh column); no row is dropped or moved. *)
Theorem X8_animal_age_table (self : Cleaner) (h : heap) (f : frame) :
  h !! df self = Some f ->
  exists f',
    animal_age_transformation self h = (Return tt, <[df self := f']> h) /\
    rows f' = map age_row (rows f) /\
    columns f' = with_column "age_at_start(days)" (columns f).
Proof.
  intros H. exists (animal_age_frame f).
  split; [by apply animal_age_run |]. split; [apply animal_age_frame_rows |].
  unfold animal_age_frame, loc_set. cbn [columns]. by rewrite !with_column_twice.
Qed.

Lemma X8_animal_age_table_witness :
  [DataFrame [obs_mg_dL; obs_unmatched_age]] !! df (example_cleaner 0)
    = Some (DataFrame [obs_mg_dL; obs_unmatched_age]) /\
  exists f',
    animal_age_transformation (example_cleaner 0) [DataFrame [obs_mg_dL; obs_unmatched_age]]
      = (Return tt, [f']) /\
    map (fun r => isna (age_at_start_days r)) (rows f') = [false; true].
Proof.
  split; [reflexivity |].
  destruct (X8_animal_age_table (example_cleaner 0)
              [DataFrame [obs_mg_dL; obs_unmatched_age]]
              (DataFrame [obs_mg_dL; obs_unmatched_age]) eq_refl)
    as (f' & Hrun & Hrows & _).
  exists f'. split; [exact Hrun |]. rewrite Hrows. reflexivity.
Defined.

(** X9: the six unit lists of the timepoint step are pairwise disjoint, so
    the six assignments act as one table lookup: in place, whether line 102
    then returns or raises, every row gets its timepoint x 7, x 30, x 360,
    / 24, / 1440 or x 1 in 'timepoint(days)' according to the list its unit is
    in, and a row whose unit is in no list keeps the cell it had.  When the
    last two columns at line 102 are 'age_at_start(days)' and
    'timepoint(days)', the step returns and 'timepoint_age(days)' holds their
    skip-missing sum in every row; no row is dropped or moved. *)
Theorem X9_timepoint_table (self : Cleaner) (h : heap) (f : frame) :
  h !! df self = Some f ->
  (exists f',
      snd (timepoint_transformation self h) = <[df self := f']> h /\
      map timepoint_days (rows f')
      = map (fun r => timepoint_days (timepoint_day_row r)) (rows f)) /\
  (days_last f ->
   exists f',
     timepoint_transformation self h = (Return tt, <[df self := f']> h) /\
     rows f' = map timepoint_row (rows f) /\
     columns f' = with_column "timepoint_age(days)"
                    (with_column "timepoint(days)" (columns f))).
Proof.
  intros H. split.
  - exists (timepoint_state f). split; [by apply timepoint_state_run |].
    destruct (timepoint_state_rows f) as [total ->]. rewrite map_map.
    apply map_ext. intros r. by destruct total.
  - intros Hlast. eexists. split.
    + by rewrite (timepoint_run _ _ _ H), (timepoint_frame_days_last _ Hlast).
    + unfold loc_set. cbn [rows columns].
      rewrite timepoint_assign_rows, timepoint_assign_columns, map_map.
      split; reflexivity.
Qed.

Lemma X9_timepoint_table_witness :
  [animal_age_frame (DataFrame [obs_mg_dL; obs_unmatched_age])] !! df (example_cleaner 0)
    = Some (animal_age_frame (DataFrame [obs_mg_dL; obs_unmatched_age])) /\
  days_last (animal_age_frame (DataFrame [obs_mg_dL; obs_unmatched_age])) /\
  exists f',
    timepoint_transformation (example_cleaner 0)
      [animal_age_frame (DataFrame [obs_mg_dL; obs_unmatched_age])]
      = (Return tt, [f']) /\
    map timepoint_days (rows f') = [0.125; 3]%float /\
    map timepoint_age_days (rows f') = [14.125; 3]%float.
Proof.
  split; [reflexivity |]. split; [reflexivity |].
  destruct (X9_timepoint_table (example_cleaner 0)
              [animal_age_frame (DataFrame [obs_mg_dL; obs_unmatched_age])]
              (animal_age_frame (DataFrame [obs_mg_dL; obs_unmatched_age])) eq_refl)
    as [_ Hsum].
  destruct (Hsum eq_refl) as (f' & Hrun & Hrows & _).
  exists f'. split; [exact Hrun |]. rewrite Hrows. split; reflexivity.
Defined.

Lemma age_row_inputs (r : row) :
  inputs_of (age_row r) = inputs_of r /\
  average_value_fixed (age_row r) = average_value_fixed r /\
  unit_fixed (age_row r) = unit_fixed r.
Proof. unfold age_row. by destruct (age_in_days _ _). Qed.

Lemma timepoint_day_row_inputs (r : row) :
  inputs_of (timepoint_day_row r) = inputs_of r /\
  average_value_fixed (timepoint_day_row r) = average_value_fixed r /\
  unit_fixed (timepoint_day_row r) = unit_fixed r.
Proof. unfold timepoint_day_row. by destruct (timepoint_in_days _ _). Qed.

(** X10: the two time steps touch nothing but their three columns: in the
    frame they leave in place, whether line 102 returned or raised, the rows
    keep their number and order, and every row keeps its index label, its
    seven input cells and its two fixed cells. *)
Theorem X10_time_steps_keep_inputs (f : frame) :
  map inputs_of (rows (timepoint_state (animal_age_frame f))) = map inputs_of (rows f) /\
  map average_value_fixed (rows (timepoint_state (animal_age_frame f)))
    = map average_value_fixed (rows f) /\
  map unit_fixed (rows (timepoint_state (animal_age_frame f))) = map unit_fixed (rows f) /\
  List.length (rows (timepoint_state (animal_age_frame f))) = List.length (rows f).
Proof.
  destruct (timepoint_state_rows (animal_age_frame f)) as [total ->].
  rewrite animal_age_frame_rows, !map_map, !length_map.
  repeat split; try reflexivity; apply map_ext; intros r;
    destruct (timepoint_day_row_inputs (age_row r)) as (H1 & H2 & H3);
    destruct (age_row_inputs r) as (H4 & H5 & H6);
    destruct total as [t|];
    try change (inputs_of (set_timepoint_age_days ?x ?r0)) with (inputs_of r0);
    try change (average_value_fixed (set_timepoint_age_days ?x ?r0))
      with (average_value_fixed r0);
    try change (unit_fixed (set_timepoint_age_days ?x ?r0)) with (unit_fixed r0);
    congruence.
Qed.

(** ** The outcome of a cleaning pass *)

(** X13: a cleaning pass over a frame built from the caller's observations
    returns exactly when no remaining row has a concentration-like value unit,
    and then the result is a new object holding a copy of the time-normalised
    frame.  Otherwise it raises, ValueError when the first concentration-like
    unit has four or more parts and AttributeError when it has fewer.  In both
    cases the Cleaner's frame is left as the time-normalised filtered frame:
    no fixed cell is written. *)
Theorem X13_clean_dataframe_outcome (get_compounds : string -> list compound)
    (self : Cleaner) (h : heap) (data : list observation) :
  h !! df self = Some (DataFrame data) ->
  clean_dataframe get_compounds self h =
  match concentration_units_of (time_normalised (DataFrame data)) with
  | [] => (Return (List.length h),
           (<[df self := time_normalised (DataFrame data)]> h
              ++ [time_normalised (DataFrame data)])%list)
  | unit :: _ =>
      (Raise (if (3 <=? count_char "/" unit)%nat then ValueError else AttributeError),
       <[df self := time_normalised (DataFrame data)]> h)
  end.
Proof.
  intros H. rewrite (clean_dataframe_fresh _ _ _ _ H).
  set (f0 := time_normalised (DataFrame data)).
  pose proof (insert_lookup_same _ _ _ f0 H) as H0.
  destruct (concentration_units_of f0) as [|u us].
  - unfold correct_units. cbn [for_each]. unfold mbind, mret, read, alloc.
    by rewrite (list_lookup_total_correct _ _ _ H0), (length_insert (A := frame)).
  - unfold correct_units. cbn [for_each].
    assert (Hu : correct_unit self
                   (get_parameter_weights get_compounds
                      (parameters_with_units (u :: us) f0))
                   u (<[df self := f0]> h)
                 = (Raise (if (3 <=? count_char "/" u)%nat
                           then ValueError else AttributeError),
                    <[df self := f0]> h)).
    { unfold correct_unit, mbind, lift, read.
      pose proof (unit_args_outcome u) as Ho.
      destruct (3 <=? count_char "/" u)%nat.
      - by rewrite Ho.
      - destruct Ho as [args_ ->]. reflexivity. }
    unfold mbind at 1. unfold mbind at 1. by rewrite Hu.
Qed.

Lemma X13_clean_dataframe_outcome_witness :
  [DataFrame [obs_mg_dL]] !! df (example_cleaner 0) = Some (DataFrame [obs_mg_dL]) /\
  clean_dataframe glucose_only (example_cleaner 0) [DataFrame [obs_mg_dL]]
  = (Raise AttributeError, [time_normalised (DataFrame [obs_mg_dL])]).
Proof.
  split; [reflexivity |].
  exact (X13_clean_dataframe_outcome glucose_only (example_cleaner 0)
           [DataFrame [obs_mg_dL]] [obs_mg_dL] eq_refl).
Defined.

(** ** The parameters sent to the lookup *)

(** X15: the list of parameters handed to the weight lookup (line 53) holds
    each parameter once, and holds exactly the parameters of the rows whose
    value unit is one of the concentration-like units. *)
Theorem X15_parameters_with_units (concentration_units : list string) (f : frame) :
  NoDup (parameters_with_units concentration_units f) /\
  forall p,
    p ∈ parameters_with_units concentration_units f <->
    exists r, r ∈ rows f /\ parameter r = p /\ value_unit r ∈ concentration_units.
Proof.
  unfold parameters_with_units. split; [apply unique_from_NoDup |].
  intros p. rewrite unique_elem_of, list_elem_of_fmap. split.
  - intros (r & -> & Hr). apply list_elem_of_In, filter_In in Hr as [Hr Hu].
    exists r. split; [by apply list_elem_of_In |]. split; [done |].
    by apply py_in_elem_of.
  - intros (r & Hr & <- & Hu). exists r. split; [done |].
    apply list_elem_of_In, filter_In. split; [by apply list_elem_of_In |].
    by apply py_in_elem_of.
Qed.

(** ** Decomposition and arithmetic together *)

(** X16: with a non-zero weight, the conversion of a value in a unit string
    with fewer than three "/" always returns a value; in a unit string with
    three or more "/" it raises ValueError before any arithmetic. *)
Theorem X16_convert_in_unit_outcome (unit : string) (value weight : float) :
  PrimFloat.eqb weight 0 = false ->
  if (3 <=? count_char "/" unit)%nat
  then convert_in_unit unit value weight = Raise ValueError
  else exists x, convert_in_unit unit value weight = Return x.
Proof.
  intros Hw. unfold convert_in_unit.
  pose proof (unit_args_outcome unit) as Ho.
  destruct (3 <=? count_char "/" unit)%nat.
  - by rewrite Ho.
  - destruct Ho as [args_ ->]. cbn [obind]. by apply convert_returns.
Qed.

Lemma X16_convert_in_unit_outcome_witness :
  PrimFloat.eqb 180.16 0 = false /\
  exists x, convert_in_unit "mg/min/mL" 50 180.16 = Return x.
Proof.
  split; [reflexivity |].
  exact (X16_convert_in_unit_outcome "mg/min/mL" 50 180.16 eq_refl).
Defined.

(** ** The two assignments of lines 310-312 *)

(** X17: whatever list of values the two assignments accept, a row of the
    unit whose parameter has no entry in the weight table keeps its value
    unit and its 'average_value_fixed' cell and gets "mM" in 'unit_fixed':
    line 312 masks on the unit alone. *)
Theorem X17_write_fixed_labels_every_row (unit : string)
    (parameter_weight : gmap string float) (list_of_vals : list float) (f f' : frame) :
  write_fixed unit parameter_weight list_of_vals f = Return f' ->
  forall i r,
    rows f !! i = Some r ->
    value_unit r = unit ->
    parameter_weight !! parameter r = None ->
    exists r',
      rows f' !! i = Some r' /\
      value_unit r' = value_unit r /\
      average_value_fixed r' = average_value_fixed r /\
      unit_fixed r' = Some "mM".
Proof.
  intros Hrun i r Hi Hu Hw.
  destruct (write_fixed_lookup _ _ _ _ _ Hrun) as (_ & _ & Hpos).
  destruct (Hpos i r Hi) as (r' & Hr' & _ & Hnw & _).
  exists r'. split; [done |].
  rewrite Hnw; [done | done |].
  unfold has_weight. rewrite Hw. apply bool_decide_eq_false. by intros [? ?].
Qed.

Lemma X17_write_fixed_labels_every_row_witness :
  write_fixed "mg/dL" (<["Glucose" := 180.16%float]> ∅) [0.25%float]
              (DataFrame [obs_mg_dL; obs_unknown])
    = Return (Frame ["average_value_fixed"; "unit_fixed"]
                [set_unit_fixed (Some "mM")
                   (set_average_value_fixed 0.25 (load obs_mg_dL));
                 set_unit_fixed (Some "mM") (load obs_unknown)]) /\
  exists r',
    [set_unit_fixed (Some "mM") (set_average_value_fixed 0.25 (load obs_mg_dL));
     set_unit_fixed (Some "mM") (load obs_unknown)] !! 1%nat = Some r' /\
    value_unit r' = "mg/dL" /\
    average_value_fixed r' = nan /\
    unit_fixed r' = Some "mM".
Proof.
  split; [reflexivity |].
  exact (X17_write_fixed_labels_every_row "mg/dL" (<["Glucose" := 180.16%float]> ∅)
           [0.25%float] (DataFrame [obs_mg_dL; obs_unknown]) _ eq_refl
           1%nat (load obs_unknown) eq_refl eq_refl eq_refl).
Defined.

(** ** The rows the filter keeps *)

(** X18: the row filter works in place, keeps the columns, and keeps exactly
    the rows whose timepoint and animal age are present and whose index label
    is not the label of a negative-timepoint row; when the index labels are
    distinct these are the rows with a present animal age and a present,
    non-negative timepoint.  The sign of the animal age plays no part. *)
Theorem X18_remove_nans_exact (self : Cleaner) (h : heap) (f : frame) :
  h !! df self = Some f ->
  exists f',
    remove_nans self h = (Return tt, <[df self := f']> h) /\
    columns f' = columns f /\
    (forall r, r ∈ rows f' <->
               r ∈ rows f /\ shares_negative_label f r = false /\
               notna (timepoint r) = true /\ notna (animal_age r) = true) /\
    (NoDup (map label (rows f)) ->
     forall r, r ∈ rows f' <->
               r ∈ rows f /\ PrimFloat.ltb (timepoint r) 0 = false /\
               notna (timepoint r) = true /\ notna (animal_age r) = true).
Proof.
  intros H. exists (remove_nans_frame f).
  split; [by apply remove_nans_run |]. split; [reflexivity |].
  split; [apply remove_nans_frame_rows |].
  intros Hnd r. rewrite remove_nans_frame_rows. split.
  - intros (Hin & Hs & Ht & Ha). split; [done |]. split; [| done].
    destruct (PrimFloat.ltb (timepoint r) 0) eqn:E; [| done].
    rewrite (negative_shares_label f r Hin E) in Hs. discriminate.
  - intros (Hin & Hneg & Ht & Ha). split; [done |]. split; [| done].
    by apply unique_label_not_shared.
Qed.

Lemma X18_remove_nans_exact_witness :
  [DataFrame [obs_zero_no_age; obs_negative_age]] !! df (example_cleaner 0)
    = Some (DataFrame [obs_zero_no_age; obs_negative_age]) /\
  exists f',
    remove_nans (example_cleaner 0) [DataFrame [obs_zero_no_age; obs_negative_age]]
      = (Return tt, [f']) /\
    rows f' = [load obs_negative_age].
Proof.
  split; [reflexivity |].
  destruct (X18_remove_nans_exact (example_cleaner 0)
              [DataFrame [obs_zero_no_age; obs_negative_age]]
              (DataFrame [obs_zero_no_age; obs_negative_age]) eq_refl)
    as (f' & Hrun & _).
  exists f'. split; [exact Hrun |].
  vm_compute in Hrun.
  apply (f_equal snd) in Hrun. cbn [snd] in Hrun.
  injection Hrun as <-. reflexivity.
Defined.
